(** * YAML to S-expression converter: a shallow embedding of [src/main.py]

    The development follows the source file top to bottom:

    - [Py]: the fragments of the Python runtime the converter calls
      (text as code points, [str.join], [str(int)], the ['02d'] and ['02x']
      format specifications, [ord], exceptions);
    - [Re]: the fragment of the [re] module the two compiled patterns use
      (character classes, [^], [$], grouping, alternation, bounded and
      unbounded repetition, [match] and [sub]);
    - section [Converter]: the class [YAMLToSExpConverter] and [main], on
      the values of the data model and an interpreter without resource
      limits;
    - [Object], [to_sexp_rt], [main_rt]: the same code on every object it
      can receive, run by an interpreter that bounds the call stack and the
      digits of an integer it converts to text;
    - the properties of the encoder, and how the two readings agree. *)

From Stdlib Require Import Ascii String.
From Stdlib Require Import List NArith ZArith Bool Lia.
From Stdlib Require Import PrimFloat SpecFloat FloatOps FloatAxioms.
From Stdlib Require DecimalString HexadecimalString DecimalZ DecimalPos.
Import ListNotations.

(* ------------------------------------------------------------------ *)
(** ** Python runtime fragments *)

Module Py.

(** A Python [str] is a sequence of Unicode code points. *)
Definition pystr : Type := list N.

(** An ASCII literal of the source, as a [pystr]. *)
Definition lit (s : string) : pystr :=
  map N_of_ascii (list_ascii_of_string s).

Arguments lit s%_string.

(** The code point of an ASCII character. *)
Definition code (a : ascii) : N := N_of_ascii a.
Arguments code a%_char.

(** Characters the source names through escape sequences. *)
Definition TAB : N := 9.
Definition NEWLINE : N := 10.
Definition RETURN : N := 13.
Definition DQUOTE : N := 34.
Definition SQUOTE : N := 39.
Definition BACKSLASH : N := 92.
Definition UNDERSCORE : N := 95.

Definition pystr_eqb (a b : pystr) : bool :=
  if list_eq_dec N.eq_dec a b then true else false.

(** Exceptions that can reach [main]'s handlers; the text is [str(e)]. *)
Inductive exn : Type :=
| TypeError (msg : pystr)
| ValueError (msg : pystr)
| RecursionError (msg : pystr)
| FileNotFoundError (msg : pystr)
| OtherError (msg : pystr).

Definition exn_msg (e : exn) : pystr :=
  match e with
  | TypeError m | ValueError m | RecursionError m | FileNotFoundError m
  | OtherError m => m
  end.

Inductive result (A : Type) : Type :=
| Ok (a : A)
| Raise (e : exn).

Arguments Ok {A} a.
Arguments Raise {A} e.

Definition bind {A B : Type} (m : result A) (k : A -> result B) : result B :=
  match m with
  | Ok a => k a
  | Raise e => Raise e
  end.

(** A [for] loop or comprehension that appends one result per element and
    stops at the first exception. *)
Fixpoint mapM {A B : Type} (f : A -> result B) (l : list A) : result (list B) :=
  match l with
  | [] => Ok []
  | x :: rest =>
      match f x with
      | Ok y =>
          match mapM f rest with
          | Ok ys => Ok (y :: ys)
          | Raise e => Raise e
          end
      | Raise e => Raise e
      end
  end.

(** [sep.join(parts)] *)
Fixpoint join (sep : pystr) (parts : list pystr) : pystr :=
  match parts with
  | [] => []
  | [p] => p
  | p :: rest => p ++ sep ++ join sep rest
  end.

(** [str(n)] for an [int], the digit limit of the conversion apart
    ([str_int_rt] below has it). *)
Definition str_int (z : Z) : pystr :=
  lit (DecimalString.NilZero.string_of_int (Z.to_int z)).

(** Lowercase hexadecimal digits of a non-negative [int] (format type ['x']). *)
Definition hex_digits (n : N) : pystr :=
  lit (HexadecimalString.NilZero.string_of_uint (N.to_hex_uint n)).

(** Left padding with ['0'] up to [width] characters. *)
Definition zfill (width : nat) (digits : pystr) : pystr :=
  repeat 48%N (width - length digits) ++ digits.

(** [format(z, '02d')]: sign-aware zero padding to a minimum width of 2. *)
Definition format_02d (z : Z) : pystr :=
  if (z <? 0)%Z
  then lit "-" ++ zfill 1 (str_int (Z.abs z))
  else zfill 2 (str_int z).

(** [format(n, '02x')] for [n >= 0]. *)
Definition format_02x (n : N) : pystr :=
  zfill 2 (hex_digits n).

(** [ord(c)]: defined on one-character strings only. *)
Definition ord (c : pystr) : result N :=
  match c with
  | [x] => Ok x
  | _ =>
      Raise (TypeError (lit "ord() expected a character, but string of length "
                          ++ str_int (Z.of_nat (length c)) ++ lit " found"))
  end.

End Py.

Import Py.

Declare Scope py_scope.
Delimit Scope py_scope with py.
Notation "x <- m ;; k" := (bind m (fun x => k))
  (at level 61, m at next level, right associativity) : py_scope.
Open Scope py_scope.

(* ------------------------------------------------------------------ *)
(** ** The [re] fragment *)

Module Re.

(** Members of a bracketed class, and the classes [\d] and [\w]. *)
Inductive citem : Type :=
| CChar (c : N)
| CRange (lo hi : N)
| CDigit
| CWord.

Inductive regex : Type :=
| Eps
| Bol
| Eol
| Class (cs : list citem)
| Seq (r1 r2 : regex)
| Alt (r1 r2 : regex)
| Rep (r : regex) (lo : nat) (hi : option nat)
| Group (r : regex).

(** Pattern items written one after the other. *)
Fixpoint concatenation (rs : list regex) : regex :=
  match rs with
  | [] => Eps
  | [r] => r
  | r :: rest => Seq r (concatenation rest)
  end.

(** ['|'.join(...)] of patterns, compiled. *)
Fixpoint alternation (rs : list regex) : regex :=
  match rs with
  | [] => Eps
  | [r] => r
  | r :: rest => Alt r (alternation rest)
  end.

(** A position in the subject: the index reached and the text that remains. *)
Definition pos : Type := (nat * pystr)%type.

(** Exactly [n] iterations of [step]. *)
Fixpoint iterate (step : pos -> list pos) (n : nat) (p : pos) : list pos :=
  match n with
  | O => [p]
  | S k => flat_map (iterate step k) (step p)
  end.

(** At most [n] iterations of [step], the longest first (greedy). *)
Fixpoint upto (step : pos -> list pos) (n : nat) (p : pos) : list pos :=
  match n with
  | O => [p]
  | S k => flat_map (upto step k) (step p) ++ [p]
  end.

Section Unicode.

(** The Unicode database behind [\d] and [\w] on [str] patterns:
    [isdecimal c] is [chr(c).isdecimal()], [isalnum c] is [chr(c).isalnum()]. *)
Variables isdecimal isalnum : N -> bool.

Definition item_mem (it : citem) (c : N) : bool :=
  match it with
  | CChar x => (c =? x)%N
  | CRange lo hi => (lo <=? c)%N && (c <=? hi)%N
  | CDigit => isdecimal c
  | CWord => isalnum c || (c =? UNDERSCORE)%N
  end.

Definition class_mem (cs : list citem) (c : N) : bool :=
  existsb (fun it => item_mem it c) cs.

(** [run r p]: the positions at which a match of [r] started at [p] can end,
    in the order the backtracking matcher tries them.  [$] holds at the end
    of the text and just before a newline that ends the text (no MULTILINE
    flag).  An unbounded repetition needs no more iterations than there are
    characters left. *)
Fixpoint run (r : regex) (p : pos) : list pos :=
  match r with
  | Eps => [p]
  | Bol => if Nat.eqb (fst p) 0 then [p] else []
  | Eol =>
      match snd p with
      | [] => [p]
      | [c] => if (c =? NEWLINE)%N then [p] else []
      | _ => []
      end
  | Class cs =>
      match snd p with
      | c :: rest => if class_mem cs c then [(S (fst p), rest)] else []
      | [] => []
      end
  | Seq r1 r2 => flat_map (run r2) (run r1 p)
  | Alt r1 r2 => run r1 p ++ run r2 p
  | Rep r1 lo hi =>
      flat_map
        (fun q => upto (run r1)
                    (match hi with
                     | Some h => h - lo
                     | None => length (snd q)
                     end) q)
        (iterate (run r1) lo p)
  | Group r1 => run r1 p
  end.

(** [pattern.match(s)]: the preferred match anchored at index 0, if any. *)
Definition re_match (r : regex) (s : pystr) : option pos :=
  hd_error (run r (0, s)).

(** Acceptance by [match], as a proposition: some way of matching from
    index 0 exists. *)
Definition accepts (r : regex) (s : pystr) : Prop :=
  exists q, In q (run r (0, s)).

(** [bool(m)] for [m] a match object or [None]. *)
Definition matched (m : option pos) : bool :=
  match m with Some _ => true | None => false end.

(** [pattern.sub(repl, s)] with a callable [repl], scanning from index [i];
    [skip] counts the characters still covered by the previous match.
    [repl] receives [group(0)]. *)
Fixpoint sub_from (r : regex) (repl : pystr -> result pystr)
    (i skip : nat) (s : pystr) : result pystr :=
  match s with
  | [] =>
      match skip, hd_error (run r (i, [])) with
      | O, Some _ => repl []
      | _, _ => Ok []
      end
  | c :: rest =>
      match skip with
      | S k => sub_from r repl (S i) k rest
      | O =>
          match hd_error (run r (i, s)) with
          | Some (j, _) =>
              match j - i with
              | O =>
                  out <- repl [] ;;
                  tail <- sub_from r repl (S i) 0 rest ;;
                  Ok (out ++ c :: tail)
              | S k =>
                  out <- repl (firstn (S k) s) ;;
                  tail <- sub_from r repl (S i) k rest ;;
                  Ok (out ++ tail)
              end
          | None =>
              tail <- sub_from r repl (S i) 0 rest ;;
              Ok (c :: tail)
          end
      end
  end.

Definition re_sub (r : regex) (repl : pystr -> result pystr) (s : pystr)
  : result pystr :=
  sub_from r repl 0 0 s.

End Unicode.

End Re.

Import Re.

(* ------------------------------------------------------------------ *)
(** ** The values handed to the converter *)

(** [datetime.date]: [year], [month], [day]. *)
Record date : Type := Date { year : Z; month : Z; day : Z }.

(** [datetime.datetime]: a date and a time of day. *)
Record datetime : Type := DateTime {
  dt_year : Z; dt_month : Z; dt_day : Z;
  hour : Z; minute : Z; second : Z; microsecond : Z
}.

(** [datetime.date()] *)
Definition date_of (d : datetime) : date :=
  Date (dt_year d) (dt_month d) (dt_day d).

#[local] Set Warnings "-register-all".

(** The parsed document: the runtime types [to_sexp] dispatches on.
    A [dict] is kept as its items in insertion order, with [str] keys. *)
Inductive Value : Type :=
| VNull
| VBool (b : bool)
| VInt (z : Z)
| VFloat (f : float)
| VText (s : pystr)
| VDate (d : date)
| VDateTime (d : datetime)
| VSequence (items : list Value)
| VMapping (items : list (pystr * Value)).

(** [isinstance(item, dict)] *)
Definition is_dict (v : Value) : bool :=
  match v with VMapping _ => true | _ => false end.

(* ------------------------------------------------------------------ *)
(** ** class YAMLToSExpConverter *)

Record YAMLToSExpConverter : Type := Converter {
  key_prefix : pystr;
  escape_pattern : regex;
  symbol_patterns : list regex;
  symbol_regex : regex
}.

(** The pattern of [escape_pattern]: one group, an alternation of the class
    of the double quote and the backslash and the class [[\x00-\x1f\x7f]]. *)
Definition escape_pattern_src : regex :=
  Group (Alt (Class [CChar DQUOTE; CChar BACKSLASH])
             (Class [CRange 0 31; CChar 127])).

(** [r'^[A-Z]\d{4,6}$'], [r'^[A-Z]{2,3}$'], [r'^[a-zA-Z_]\w*$'] *)
Definition symbol_patterns_src : list regex :=
  [ concatenation [Bol; Class [CRange (code "A") (code "Z")];
              Rep (Class [CDigit]) 4 (Some 6); Eol];
    concatenation [Bol; Rep (Class [CRange (code "A") (code "Z")]) 2 (Some 3); Eol];
    concatenation [Bol;
              Class [CRange (code "a") (code "z"); CRange (code "A") (code "Z");
                     CChar UNDERSCORE];
              Rep (Class [CWord]) 0 None; Eol] ].

(** [__init__] *)
Definition init (key_prefix : pystr) : YAMLToSExpConverter :=
  {| key_prefix := key_prefix;
     escape_pattern := escape_pattern_src;
     symbol_patterns := symbol_patterns_src;
     symbol_regex := alternation (map Group symbol_patterns_src) |}.

(** The default of [__init__]'s [key_prefix]. *)
Definition default_key_prefix : pystr := lit "yaml".

Section Converter.

(** What the interpreter supplies: the Unicode database read by [\d] and
    [\w], and [str(x)] for a [float] [x]. *)
Variables isdecimal isalnum : N -> bool.
Variable float_str : float -> pystr.

Variable self : YAMLToSExpConverter.

Definition escape_char (char : pystr) : result pystr :=
  if pystr_eqb char [DQUOTE] then Ok [BACKSLASH; DQUOTE]
  else if pystr_eqb char [BACKSLASH] then Ok [BACKSLASH; BACKSLASH]
  else if pystr_eqb char [NEWLINE] then Ok (BACKSLASH :: lit "n")
  else if pystr_eqb char [RETURN] then Ok (BACKSLASH :: lit "r")
  else if pystr_eqb char [TAB] then Ok (BACKSLASH :: lit "t")
  else
    n <- ord char ;;
    Ok (BACKSLASH :: lit "x" ++ format_02x n).

Definition escape_string (s : pystr) : result pystr :=
  re_sub isdecimal isalnum (escape_pattern self) escape_char s.

Definition is_symbol (s : pystr) : bool :=
  if Nat.eqb (length s) 0 || Nat.ltb 20 (length s) then false
  else matched (re_match isdecimal isalnum (symbol_regex self) s).

Definition format_date (date_obj : date) : pystr :=
  lit "(make-date " ++ str_int (year date_obj) ++ lit " "
    ++ format_02d (month date_obj) ++ lit " "
    ++ format_02d (day date_obj) ++ lit ")".

Definition is_list_of_records (data : list Value) : bool :=
  match data with
  | [] => false
  | _ => forallb is_dict data
  end.

(** [to_sexp] on the values of the data model, run without a bound on the
    call stack.  The last [else] of the source serves runtime types that
    are not part of the data model; it is a case of [to_sexp_rt] below,
    which also counts frames. *)
Fixpoint to_sexp (data : Value) : result pystr :=
  match data with
  | VMapping items =>
      match items with
      | [] => Ok (lit "()")
      | _ =>
          parts <-
            mapM (fun item : pystr * Value =>
                    let (key, value) := item in
                    let prefixed_key := key_prefix self ++ lit ":" ++ key in
                    converted_value <- to_sexp value ;;
                    Ok (lit "(" ++ prefixed_key ++ lit " "
                          ++ converted_value ++ lit ")"))
                 items ;;
          Ok (join (lit " ") parts)
      end
  | VSequence items =>
      match items with
      | [] => Ok (lit "()")
      | _ =>
          if is_list_of_records items then
            item_parts <-
              mapM (fun record =>
                      record_sexp <- to_sexp record ;;
                      Ok (lit "(" ++ key_prefix self ++ lit ":item "
                            ++ record_sexp ++ lit ")"))
                   items ;;
            Ok (join (lit " ") item_parts)
          else
            elements <- mapM to_sexp items ;;
            Ok (lit "(" ++ join (lit " ") elements ++ lit ")")
      end
  | VText s =>
      if is_symbol s then Ok (SQUOTE :: s)
      else
        escaped <- escape_string s ;;
        Ok (DQUOTE :: escaped ++ [DQUOTE])
  | VBool b => Ok (if b then lit "#t" else lit "#f")
  | VInt z => Ok (str_int z)
  | VFloat f =>
      if negb (f =? f)%float then Ok (lit "+nan.0")
      else if (f =? infinity)%float then Ok (lit "+inf.0")
      else if (f =? neg_infinity)%float then Ok (lit "-inf.0")
      else Ok (float_str f)
  | VDate d => Ok (format_date d)
  | VDateTime d => Ok (format_date (date_of d))
  | VNull => Ok (lit "nil")
  end.

(** The text [to_sexp] returns (empty when it raises). *)
Definition encoded (data : Value) : pystr :=
  match to_sexp data with
  | Ok s => s
  | Raise _ => []
  end.

End Converter.

(* ------------------------------------------------------------------ *)
(** ** [main] *)



(** What [main] leaves behind: the two streams and the return value. *)
Record outcome : Type := Outcome {
  stdout : pystr;
  stderr : pystr;
  status : Z
}.

Section Main.

Variables isdecimal isalnum : N -> bool.
Variable float_str : float -> pystr.


End Main.

(* ------------------------------------------------------------------ *)
(** ** Vocabulary of the properties *)

(** Control characters in the sense of the escaping rule: U+0000 to U+001F
    and U+007F. *)
Definition is_control (c : N) : bool := (c <=? 31)%N || (c =? 127)%N.

(** Membership in the class of [escape_pattern], spelled out. *)
Definition needs_escape (c : N) : bool :=
  (c =? DQUOTE)%N || (c =? BACKSLASH)%N || is_control c.

(** One lowercase hexadecimal digit. *)
Definition hex_digit (d : N) : N :=
  if (d <? 10)%N then (48 + d)%N else (87 + d)%N.

(** One decimal digit. *)
Definition dec_digit (d : Z) : N := Z.to_N (48 + d).

(** A number below 100 written with exactly two decimal digits. *)
Definition two_digits (z : Z) : pystr :=
  [dec_digit (z / 10); dec_digit (z mod 10)].

(** Classes of ASCII characters. *)
Definition ascii_upper (c : N) : bool := (65 <=? c)%N && (c <=? 90)%N.
Definition ascii_lower (c : N) : bool := (97 <=? c)%N && (c <=? 122)%N.
Definition ascii_letter (c : N) : bool := ascii_upper c || ascii_lower c.
Definition ascii_digit (c : N) : bool := (48 <=? c)%N && (c <=? 57)%N.
Definition ascii_word (c : N) : bool :=
  ascii_letter c || ascii_digit c || (c =? UNDERSCORE)%N.

(** What [\w] accepts, given [str.isalnum]. *)
Definition unicode_word (isalnum : N -> bool) (c : N) : bool :=
  isalnum c || (c =? UNDERSCORE)%N.

(** Shape 1: one uppercase ASCII letter, then 4 to 6 digits. *)
Definition letter_digits (digit : N -> bool) (s : pystr) : bool :=
  match s with
  | c :: t =>
      ascii_upper c && Nat.leb 4 (length t) && Nat.leb (length t) 6
        && forallb digit t
  | [] => false
  end.

(** Shape 2: 2 or 3 uppercase ASCII letters. *)
Definition upper_letters (s : pystr) : bool :=
  Nat.leb 2 (length s) && Nat.leb (length s) 3 && forallb ascii_upper s.

(** Shape 3: an ASCII letter or underscore, then word characters. *)
Definition identifier (word : N -> bool) (s : pystr) : bool :=
  match s with
  | c :: t => (ascii_letter c || (c =? UNDERSCORE)%N) && forallb word t
  | [] => false
  end.

Definition length_ok (s : pystr) : bool :=
  Nat.leb 1 (length s) && Nat.leb (length s) 20.

(** The symbol test as the specification words it. *)
Definition claimed_symbol (s : pystr) : bool :=
  length_ok s
  && (letter_digits ascii_digit s || upper_letters s
      || identifier ascii_word s).

(** The three shapes with the classes the patterns use. *)
Definition symbol_shape (isdecimal isalnum : N -> bool) (s : pystr) : bool :=
  letter_digits isdecimal s || upper_letters s
  || identifier (unicode_word isalnum) s.

(** Where [$] holds: at the end, or before a final newline. *)
Definition at_eol (tail : pystr) : Prop := tail = [] \/ tail = [NEWLINE].

(** The escaping rule, character by character, as the specification words
    it. *)
Definition escape_code_point (c : N) : pystr :=
  if (c =? DQUOTE)%N then [BACKSLASH; DQUOTE]
  else if (c =? BACKSLASH)%N then [BACKSLASH; BACKSLASH]
  else if (c =? NEWLINE)%N then [BACKSLASH; code "n"]
  else if (c =? RETURN)%N then [BACKSLASH; code "r"]
  else if (c =? TAB)%N then [BACKSLASH; code "t"]
  else if is_control c
       then [BACKSLASH; code "x"; hex_digit (c / 16); hex_digit (c mod 16)]
  else [c].

(** No mapping at any depth. *)
Fixpoint mapping_free (v : Value) : bool :=
  match v with
  | VMapping _ => false
  | VSequence items => forallb mapping_free items
  | _ => true
  end.

(** The fragment of a sequence element that is a record. *)
Definition item_fragment (prefix : pystr) (self_encoded : Value -> pystr)
    (record : Value) : pystr :=
  lit "(" ++ prefix ++ lit ":item " ++ self_encoded record ++ lit ")".

(** The fragment of one key/value pair of a mapping. *)
Definition pair_fragment (prefix : pystr) (self_encoded : Value -> pystr)
    (item : pystr * Value) : pystr :=
  lit "(" ++ (prefix ++ lit ":" ++ fst item) ++ lit " "
    ++ self_encoded (snd item) ++ lit ")".

(** [str.isdecimal] and [str.isalnum] on U+0000 to U+00FF, as the Unicode
    database classifies them; code points above U+00FF are outside this
    table. *)
Definition latin1_isdecimal (c : N) : bool := ascii_digit c.

Definition latin1_isalnum (c : N) : bool :=
  ascii_letter c || ascii_digit c
  || (c =? 170)%N || (c =? 178)%N || (c =? 179)%N || (c =? 181)%N
  || (c =? 185)%N || (c =? 186)%N
  || (188 <=? c)%N && (c <=? 190)%N
  || (192 <=? c)%N && (c <=? 214)%N
  || (216 <=? c)%N && (c <=? 246)%N
  || (248 <=? c)%N && (c <=? 255)%N.

(** [str(x)] on three sample floats. *)
Definition float_str_sample (f : float) : pystr :=
  if (f =? 1.5)%float then lit "1.5"
  else if (f =? 0.25)%float then lit "0.25"
  else if (f =? 1e22)%float then lit "1e+22"
  else [].

(** Sample inputs. *)
Definition text_cafe : pystr := lit "caf" ++ [233%N].
Definition text_abc_newline : pystr := lit "abc" ++ [NEWLINE].
Definition scalar_list : list Value :=
  [VInt 1; VText (lit "a b"); VBool true].
Definition record_list : list Value :=
  [VMapping [(lit "id", VInt 1)]; VMapping [(lit "id", VInt 2)]].
Definition person : list (pystr * Value) :=
  [(lit "name", VText (lit "Alice")); (lit "age", VInt 30)].

(** The invariant of [datetime.date]. *)
Definition valid_date (d : date) : Prop :=
  (1 <= year d <= 9999)%Z /\ (1 <= month d <= 12)%Z /\ (1 <= day d <= 31)%Z.

(** The value of a lowercase hexadecimal digit. *)
Definition hex_value (d : N) : N :=
  if (d <? 58)%N then (d - 48)%N else (d - 87)%N.

(** One step of reading an escaped text back: the first source character and
    what follows its escape. *)
Definition unescape_step (s : pystr) : option (N * pystr) :=
  match s with
  | [] => None
  | c :: rest =>
      if (c =? BACKSLASH)%N then
        match rest with
        | [] => None
        | d :: rest' =>
            if (d =? DQUOTE)%N then Some (DQUOTE, rest')
            else if (d =? BACKSLASH)%N then Some (BACKSLASH, rest')
            else if (d =? code "n")%N then Some (NEWLINE, rest')
            else if (d =? code "r")%N then Some (RETURN, rest')
            else if (d =? code "t")%N then Some (TAB, rest')
            else if (d =? code "x")%N then
              match rest' with
              | h1 :: h2 :: rest'' =>
                  Some ((16 * hex_value h1 + hex_value h2)%N, rest'')
              | _ => None
              end
            else None
        end
      else Some (c, rest)
  end.

(** No control character (U+0000 to U+001F, U+007F) occurs. *)
Definition control_free (s : pystr) : bool :=
  forallb (fun c => negb (is_control c)) s.

(** The converter [__init__] would build from the third symbol pattern
    alone. *)
Definition third_pattern_only (key_prefix : pystr) : YAMLToSExpConverter :=
  let patterns := [nth 2 symbol_patterns_src Eps] in
  {| key_prefix := key_prefix;
     escape_pattern := escape_pattern_src;
     symbol_patterns := patterns;
     symbol_regex := alternation (map Group patterns) |}.

(** Every text of the tree passes [ok]. *)
Fixpoint all_texts (ok : pystr -> bool) (v : Value) : bool :=
  match v with
  | VText s => ok s
  | VSequence items => forallb (all_texts ok) items
  | VMapping items => forallb (fun kv => all_texts ok (snd kv)) items
  | _ => true
  end.

(** Every mapping key of the tree passes [ok]. *)
Fixpoint all_keys (ok : pystr -> bool) (v : Value) : bool :=
  match v with
  | VSequence items => forallb (all_keys ok) items
  | VMapping items =>
      forallb (fun kv => ok (fst kv) && all_keys ok (snd kv)) items
  | _ => true
  end.

(** The text ends in a newline. *)
Definition ends_in_newline (s : pystr) : bool := (last s 0 =? NEWLINE)%N.

(** The character is one of the two that open a text: the quote of a symbol
    or the double quote of a literal. *)
Definition opens_text (c : N) : bool := (c =? SQUOTE)%N || (c =? DQUOTE)%N.

(* ------------------------------------------------------------------ *)
(** ** The converter under the interpreter's limits

    The definitions above read the source on an interpreter without
    resource limits.  The ones below read the same source on an interpreter
    that bounds the call stack and the digits of an integer it converts to
    text, and on every object [yaml.safe_load] can deliver. *)

(** The key of a [dict] item, as the f-string of [to_sexp] formats it: a
    [str] is copied, an [int] is converted to decimal text, and any other
    key ([None], a [bool], a [float], a date, [bytes]) is given by the text
    its [str] returns. *)
Inductive Key : Type :=
| KText (s : pystr)
| KInt (z : Z)
| KOther (text : pystr).

(** Any object [to_sexp] can receive from [yaml.safe_load]: the values
    above, dicts with any key, and what the last [else] serves.
    [OIterable] is an object with [__iter__] that is none of the above nor
    [bytes] (a [set], a [tuple]), with the items [list(data)] yields;
    [OOther] is any remaining object ([bytes]), with the text [str(data)]
    returns. *)
Inductive Object : Type :=
| ONull
| OBool (b : bool)
| OInt (z : Z)
| OFloat (f : float)
| OText (s : pystr)
| ODate (d : date)
| ODateTime (d : datetime)
| OList (items : list Object)
| ODict (items : list (Key * Object))
| OIterable (items : list Object)
| OOther (text : pystr).

(** A value of the data model, as an object. *)
Fixpoint object_of (v : Value) : Object :=
  match v with
  | VNull => ONull
  | VBool b => OBool b
  | VInt z => OInt z
  | VFloat f => OFloat f
  | VText s => OText s
  | VDate d => ODate d
  | VDateTime d => ODateTime d
  | VSequence items => OList (map object_of items)
  | VMapping items =>
      ODict (map (fun item => (KText (fst item), object_of (snd item))) items)
  end.

(** [isinstance(item, dict)] *)
Definition is_dict_object (o : Object) : bool :=
  match o with ODict _ => true | _ => false end.

(** The exception of an exhausted call stack. *)
Definition recursion_error : exn :=
  RecursionError (lit "maximum recursion depth exceeded").

(** Entering a frame of Python code (a function, a generator) when [avail]
    frames are left: [body] runs with one frame less, or the interpreter
    raises.  The frames counted are those of Python code; a builtin
    ([isinstance], [str], [re]'s [sub] and [match]) takes none. *)
Definition call {A : Type} (avail : nat) (body : nat -> result A) : result A :=
  match avail with
  | O => Raise recursion_error
  | S rest => body rest
  end.

(** The number of decimal digits of an [int], its sign apart. *)
Definition int_digits (z : Z) : nat := length (str_int (Z.abs z)).

Section Limits.

Variables isdecimal isalnum : N -> bool.
Variable float_str : float -> pystr.

(** The interpreter: whether a list comprehension runs in a frame of its own
    (it does up to Python 3.11), and [sys.get_int_max_str_digits()] (0 when
    the limit is off, 4300 by default). *)
Variable comprehension_frame : bool.
Variable int_max_str_digits : nat.

Variable self : YAMLToSExpConverter.

(** The exception of an [int] with too many digits. *)
Definition digits_error : exn :=
  ValueError
    (lit "Exceeds the limit (" ++ str_int (Z.of_nat int_max_str_digits)
       ++ lit " digits) for integer string conversion; use sys.set_int_max_str_digits() to increase the limit").

(** The check of the digit limit that precedes a conversion of an [int] to
    decimal text. *)
Definition check_int_digits (z : Z) : result unit :=
  if Nat.ltb 0 int_max_str_digits && Nat.ltb int_max_str_digits (int_digits z)
  then Raise digits_error
  else Ok tt.

(** [str(n)] for an [int], under the digit limit. *)
Definition str_int_rt (z : Z) : result pystr :=
  _ <- check_int_digits z ;; Ok (str_int z).

(** [format(z, '02d')], under the digit limit. *)
Definition format_02d_rt (z : Z) : result pystr :=
  _ <- check_int_digits z ;; Ok (format_02d z).

Definition escape_string_rt (avail : nat) (s : pystr) : result pystr :=
  call avail (fun rest =>
    re_sub isdecimal isalnum (escape_pattern self)
      (fun char => call rest (fun _ => escape_char char)) s).

Definition is_symbol_rt (avail : nat) (s : pystr) : result bool :=
  call avail (fun _ => Ok (is_symbol isdecimal isalnum self s)).

Definition format_date_rt (avail : nat) (date_obj : date) : result pystr :=
  call avail (fun _ =>
    y <- str_int_rt (year date_obj) ;;
    m <- format_02d_rt (month date_obj) ;;
    d <- format_02d_rt (day date_obj) ;;
    Ok (lit "(make-date " ++ y ++ lit " " ++ m ++ lit " " ++ d ++ lit ")")).

(** [is_list_of_records]: its own frame, and the frame of the generator
    [all] draws from when the list is not empty. *)
Definition is_list_of_records_rt (avail : nat) (data : list Object)
  : result bool :=
  call avail (fun rest =>
    match data with
    | [] => Ok false
    | _ => call rest (fun _ => Ok (forallb is_dict_object data))
    end).

(** The text of a key inside an f-string. *)
Definition key_text_rt (key : Key) : result pystr :=
  match key with
  | KText s => Ok s
  | KInt z => str_int_rt z
  | KOther text => Ok text
  end.

(** [to_sexp] when [avail] frames are left: the call takes one, and every
    call it makes runs in what remains. *)
Fixpoint to_sexp_rt (avail : nat) (data : Object) : result pystr :=
  match avail with
  | O => Raise recursion_error
  | S rest =>
      match data with
      | ODict items =>
          match items with
          | [] => Ok (lit "()")
          | _ =>
              parts <-
                mapM (fun item : Key * Object =>
                        let (key, value) := item in
                        key_text <- key_text_rt key ;;
                        let prefixed_key :=
                          key_prefix self ++ lit ":" ++ key_text in
                        converted_value <- to_sexp_rt rest value ;;
                        Ok (lit "(" ++ prefixed_key ++ lit " "
                              ++ converted_value ++ lit ")"))
                     items ;;
              Ok (join (lit " ") parts)
          end
      | OList items =>
          match items with
          | [] => Ok (lit "()")
          | _ =>
              records <- is_list_of_records_rt rest items ;;
              if records then
                item_parts <-
                  mapM (fun record =>
                          record_sexp <- to_sexp_rt rest record ;;
                          Ok (lit "(" ++ key_prefix self ++ lit ":item "
                                ++ record_sexp ++ lit ")"))
                       items ;;
                Ok (join (lit " ") item_parts)
              else
                elements <-
                  (if comprehension_frame then
                     match rest with
                     | O => Raise recursion_error
                     | S inner => mapM (to_sexp_rt inner) items
                     end
                   else mapM (to_sexp_rt rest) items) ;;
                Ok (lit "(" ++ join (lit " ") elements ++ lit ")")
          end
      | OText s =>
          symbol <- is_symbol_rt rest s ;;
          if symbol then Ok (SQUOTE :: s)
          else
            escaped <- escape_string_rt rest s ;;
            Ok (DQUOTE :: escaped ++ [DQUOTE])
      | OBool b => Ok (if b then lit "#t" else lit "#f")
      | OInt z => str_int_rt z
      | OFloat f =>
          if negb (f =? f)%float then Ok (lit "+nan.0")
          else if (f =? infinity)%float then Ok (lit "+inf.0")
          else if (f =? neg_infinity)%float then Ok (lit "-inf.0")
          else Ok (float_str f)
      | ODate d => format_date_rt rest d
      | ODateTime d => format_date_rt rest (date_of d)
      | ONull => Ok (lit "nil")
      | OIterable items => to_sexp_rt rest (OList items)
      | OOther text =>
          escaped <- escape_string_rt rest text ;;
          Ok (DQUOTE :: escaped ++ [DQUOTE])
      end
  end.

End Limits.

(** What [main] reads from its environment, on the interpreter with
    limits: [sys.argv]; [Path.exists], which can raise (a directory that
    cannot be searched); [open] followed by [yaml.safe_load], delivering
    any object; the frames left when [main] runs; the frames [re.compile]
    takes below [__init__] (those of the compiler of the [re] module); and
    [print] on the output stream, which raises when the stream cannot encode
    the text (a lone surrogate) and then has written nothing. *)
Record runtime : Type := Runtime {
  rt_argv0 : pystr;
  rt_args : list pystr;
  rt_path_exists : pystr -> result bool;
  rt_safe_load : pystr -> result Object;
  rt_frames : nat;
  rt_compile_frames : nat;
  rt_print : pystr -> result unit
}.

Definition validate_yaml_structure_rt (avail : nat) (data : Object)
  : result bool :=
  call avail (fun _ =>
    match data with
    | ONull =>
        Raise (ValueError
                 (lit "YAML file is empty or contains only null values"))
    | _ => Ok true
    end).

(** [YAMLToSExpConverter()]: the frame of [__init__], and below it those of
    [re.compile]. *)
Definition init_rt (avail compile_frames : nat) (key_prefix : pystr)
  : result YAMLToSExpConverter :=
  call avail (fun rest =>
    if Nat.ltb rest compile_frames then Raise recursion_error
    else Ok (init key_prefix)).

(** The path [main] reads: [sys.argv[1]] when given, else [input.yaml]. *)
Definition rt_input_file (w : runtime) : pystr :=
  match rt_args w with
  | a :: _ => a
  | [] => lit "input.yaml"
  end.

(** The two [except] clauses of [main]. *)
Definition reported (w : runtime) (e : exn) : outcome :=
  match e with
  | FileNotFoundError _ =>
      Outcome []
        (lit "Error: Could not find file '" ++ rt_input_file w ++ lit "'"
           ++ [NEWLINE])
        1
  | _ => Outcome [] (lit "Unexpected error: " ++ exn_msg e ++ [NEWLINE]) 1
  end.

Section MainLimits.

Variables isdecimal isalnum : N -> bool.
Variable float_str : float -> pystr.
Variable comprehension_frame : bool.
Variable int_max_str_digits : nat.

(** The body of [try] in [main]: [None] when it returns 1 after the two
    messages on a missing file, else the text it printed. *)
Definition main_try (w : runtime) : result (option pystr) :=
  let input_file := rt_input_file w in
  found <- rt_path_exists w input_file ;;
  if negb found then Ok None
  else
    data <- rt_safe_load w input_file ;;
    _ <- validate_yaml_structure_rt (rt_frames w) data ;;
    converter <- init_rt (rt_frames w) (rt_compile_frames w)
                   default_key_prefix ;;
    s_expression <-
      to_sexp_rt isdecimal isalnum float_str comprehension_frame
        int_max_str_digits converter (rt_frames w) data ;;
    let line := lit "(" ++ s_expression ++ lit ")" in
    _ <- rt_print w line ;;
    Ok (Some line).

Definition main_rt (w : runtime) : outcome :=
  let input_file := rt_input_file w in
  match main_try w with
  | Ok None =>
      Outcome []
        (lit "Error: Input file '" ++ input_file ++ lit "' not found"
           ++ [NEWLINE]
           ++ lit "Usage: " ++ rt_argv0 w ++ lit " [input_file]" ++ [NEWLINE])
        1
  | Ok (Some line) => Outcome (line ++ [NEWLINE]) [] 0
  | Raise e => reported w e
  end.

End MainLimits.






(** Runs of [main] on a document holding [person], on a null document and
    on a document with an integer of 4335 digits (a hexadecimal scalar of
    3600 digits).  In these runs the file exists, the interpreter grants
    1000 frames, [re.compile] takes 40 of them, and the output stream
    encodes every text. *)
Definition runtime_of (root : Object) : runtime :=
  Runtime (lit "main.py") [] (fun _ => Ok true) (fun _ => Ok root) 1000 40
    (fun _ => Ok tt).
Definition runtime_person : runtime :=
  runtime_of (object_of (VMapping person)).

(** A [bytes] object, by the text [str] gives for it, and the text that
    reads the same. *)
Definition bytes_hi : Object := OOther (lit "b'hi'").
Definition text_bytes_hi : Object := OText (lit "b'hi'").

(* ------------------------------------------------------------------ *)
(** ** Generic lemmas *)

Section ValueInduction.

Variable P : Value -> Prop.
Hypothesis HNull : P VNull.
Hypothesis HBool : forall b, P (VBool b).
Hypothesis HInt : forall z, P (VInt z).
Hypothesis HFloat : forall f, P (VFloat f).
Hypothesis HText : forall s, P (VText s).
Hypothesis HDate : forall d, P (VDate d).
Hypothesis HDateTime : forall d, P (VDateTime d).
Hypothesis HSequence : forall items, Forall P items -> P (VSequence items).
Hypothesis HMapping :
  forall items, Forall (fun kv => P (snd kv)) items -> P (VMapping items).

Fixpoint Value_nested_ind (v : Value) : P v :=
  match v with
  | VNull => HNull
  | VBool b => HBool b
  | VInt z => HInt z
  | VFloat f => HFloat f
  | VText s => HText s
  | VDate d => HDate d
  | VDateTime d => HDateTime d
  | VSequence items =>
      HSequence items
        ((fix all (l : list Value) : Forall P l :=
            match l with
            | [] => Forall_nil P
            | x :: rest => Forall_cons x (Value_nested_ind x) (all rest)
            end) items)
  | VMapping items =>
      HMapping items
        ((fix all (l : list (pystr * Value))
            : Forall (fun kv => P (snd kv)) l :=
            match l with
            | [] => Forall_nil _
            | kv :: rest =>
                Forall_cons kv (Value_nested_ind (snd kv)) (all rest)
            end) items)
  end.

End ValueInduction.

Lemma mapM_ok {A B : Type} (f : A -> result B) (g : A -> B) (l : list A) :
  Forall (fun x => f x = Ok (g x)) l -> mapM f l = Ok (map g l).
Proof.
  induction 1 as [|x rest Hx _ IH]; simpl.
  - reflexivity.
  - now rewrite Hx, IH.
Qed.

Lemma mapM_ext {A B : Type} (f g : A -> result B) (l : list A) :
  Forall (fun x => f x = g x) l -> mapM f l = mapM g l.
Proof.
  induction 1 as [|x rest Hx _ IH]; simpl.
  - reflexivity.
  - now rewrite Hx, IH.
Qed.

(** Every number below [bound] passes a check that holds on the whole range. *)
Lemma N_below (chk : N -> bool) (bound : nat) :
  forallb chk (map N.of_nat (seq 0 bound)) = true ->
  forall n : N, (n < N.of_nat bound)%N -> chk n = true.
Proof.
  intros Hall n Hn.
  rewrite forallb_forall in Hall. apply Hall.
  rewrite <- (N2Nat.id n). apply in_map, in_seq. lia.
Qed.

Lemma format_02x_two_digits (c : N) :
  (c < 256)%N -> format_02x c = [hex_digit (c / 16); hex_digit (c mod 16)].
Proof.
  intros Hc.
  pose (chk := fun n : N =>
    pystr_eqb (format_02x n) [hex_digit (n / 16); hex_digit (n mod 16)]).
  assert (H : chk c = true).
  { apply (@N_below chk 256); [vm_compute; reflexivity | exact Hc]. }
  unfold chk, pystr_eqb in H.
  destruct (list_eq_dec N.eq_dec _ _) as [E|]; [exact E | discriminate].
Qed.

Lemma format_02d_two_digits (z : Z) :
  (0 <= z < 100)%Z -> format_02d z = two_digits z.
Proof.
  intros Hz.
  pose (chk := fun n : N =>
    pystr_eqb (format_02d (Z.of_N n)) (two_digits (Z.of_N n))).
  assert (H : chk (Z.to_N z) = true).
  { apply (@N_below chk 100); [vm_compute; reflexivity | lia]. }
  unfold chk, pystr_eqb in H. rewrite Z2N.id in H by lia.
  destruct (list_eq_dec N.eq_dec _ _) as [E|]; [exact E | discriminate].
Qed.

(* ------------------------------------------------------------------ *)
(** ** Escaping *)

Section Escaping.

Variables isdecimal isalnum : N -> bool.

Lemma run_escape_pattern (i : nat) (c : N) (rest : pystr) :
  hd_error (run isdecimal isalnum escape_pattern_src (i, c :: rest)) =
  if needs_escape c then Some (S i, rest) else None.
Proof.
  unfold needs_escape, is_control. cbn.
  replace (0 <=? c)%N with true by (symmetry; apply N.leb_le; lia).
  destruct (c =? DQUOTE)%N, (c =? BACKSLASH)%N, (c <=? 31)%N, (c =? 127)%N;
    reflexivity.
Qed.

Lemma pystr_eqb_single (c x : N) : pystr_eqb [c] [x] = (c =? x)%N.
Proof.
  unfold pystr_eqb.
  destruct (list_eq_dec N.eq_dec [c] [x]) as [E|E];
    destruct (N.eqb_spec c x) as [E'|E']; try reflexivity.
  - congruence.
  - subst. congruence.
Qed.

(** On a character of the class, the callback follows the escaping rule. *)
Lemma escape_char_code_point (c : N) :
  needs_escape c = true -> escape_char [c] = Ok (escape_code_point c).
Proof.
  intros Hc. unfold escape_char, escape_code_point.
  rewrite !pystr_eqb_single.
  destruct (c =? DQUOTE)%N eqn:E1; [reflexivity|].
  destruct (c =? BACKSLASH)%N eqn:E2; [reflexivity|].
  destruct (c =? NEWLINE)%N; [reflexivity|].
  destruct (c =? RETURN)%N; [reflexivity|].
  destruct (c =? TAB)%N; [reflexivity|].
  unfold needs_escape in Hc. rewrite E1, E2 in Hc. simpl in Hc.
  rewrite Hc. cbn [ord bind].
  rewrite format_02x_two_digits; [reflexivity|].
  unfold is_control in Hc.
  apply orb_true_iff in Hc as [H|H];
    [apply N.leb_le in H | apply N.eqb_eq in H]; lia.
Qed.

Lemma escape_code_point_other (c : N) :
  needs_escape c = false -> escape_code_point c = [c].
Proof.
  unfold needs_escape, escape_code_point, is_control.
  intros H.
  apply orb_false_iff in H as [H H3]. apply orb_false_iff in H as [H1 H2].
  apply orb_false_iff in H3 as [H3 H4].
  rewrite H1, H2.
  assert (Hn : (c =? NEWLINE)%N = false).
  { apply N.eqb_neq. apply N.leb_gt in H3. unfold NEWLINE. lia. }
  assert (Hr : (c =? RETURN)%N = false).
  { apply N.eqb_neq. apply N.leb_gt in H3. unfold RETURN. lia. }
  assert (Ht : (c =? TAB)%N = false).
  { apply N.eqb_neq. apply N.leb_gt in H3. unfold TAB. lia. }
  rewrite Hn, Hr, Ht. unfold is_control. now rewrite H3, H4.
Qed.

Lemma sub_from_escape (s : pystr) (i : nat) :
  sub_from isdecimal isalnum escape_pattern_src escape_char i 0 s =
  Ok (flat_map escape_code_point s).
Proof.
  revert i. induction s as [|c rest IH]; intros i.
  - reflexivity.
  - cbn [sub_from flat_map]. rewrite run_escape_pattern.
    destruct (needs_escape c) eqn:Hc.
    + replace (S i - i) with 1 by lia. cbn [firstn].
      rewrite escape_char_code_point by exact Hc. cbn [bind].
      rewrite IH. reflexivity.
    + rewrite IH. cbn [bind]. now rewrite escape_code_point_other by exact Hc.
Qed.

End Escaping.

(* ------------------------------------------------------------------ *)
(** ** The matcher on the symbol patterns *)

Section RegexFacts.

Variables isdecimal isalnum : N -> bool.

Local Notation "'R'" := (run isdecimal isalnum).
Local Notation "'mem'" := (class_mem isdecimal isalnum).
Local Notation "'accepts'" := (accepts isdecimal isalnum).

Lemma in_run_class (cs : list citem) (i : nat) (s : pystr) (q : pos) :
  In q (R (Class cs) (i, s)) <->
  exists c, mem cs c = true /\ s = c :: snd q /\ fst q = S i.
Proof.
  cbn. destruct s as [|c rest].
  - split; [intros [] | intros (c & _ & E & _); discriminate].
  - destruct (mem cs c) eqn:Hc; cbn.
    + split.
      * intros [<-|[]]. exists c. auto.
      * intros (c' & _ & E & Hi). left. destruct q as [j t]; cbn in *.
        injection E as -> ->. now subst.
    + split; [intros [] | intros (c' & Hc' & E & _)]. congruence.
Qed.

Lemma in_iterate_class (cs : list citem) (n : nat) :
  forall (i : nat) (s : pystr) (q : pos),
    In q (iterate (R (Class cs)) n (i, s)) <->
    exists pre, length pre = n /\ forallb (mem cs) pre = true /\
                s = pre ++ snd q /\ fst q = i + n.
Proof.
  induction n as [|n IH]; intros i s q.
  - cbn [iterate]. split.
    + intros [<-|[]]. exists []. cbn. auto.
    + intros (pre & Hl & _ & Hs & Hi). left.
      destruct pre; [|discriminate]. destruct q; cbn in *. subst. f_equal. lia.
  - cbn [iterate]. rewrite in_flat_map. split.
    + intros (m & Hm & Hq). destruct m as [j t].
      apply in_run_class in Hm as (c & Hc & Hs & Hj). cbn in Hs, Hj.
      apply IH in Hq as (pre & Hl & Hall & Ht & Hi).
      exists (c :: pre). cbn. rewrite Hc, Hall. subst. repeat split; auto. lia.
    + intros (pre & Hl & Hall & Hs & Hi).
      destruct pre as [|c pre]; [discriminate|].
      cbn in Hall. apply andb_true_iff in Hall as [Hc Hall].
      exists (S i, pre ++ snd q). split.
      * apply in_run_class. exists c. cbn. subst. auto.
      * apply IH. exists pre. cbn in Hl. repeat split; auto. lia.
Qed.

Lemma in_upto_class (cs : list citem) (n : nat) :
  forall (i : nat) (s : pystr) (q : pos),
    In q (upto (R (Class cs)) n (i, s)) <->
    exists pre, length pre <= n /\ forallb (mem cs) pre = true /\
                s = pre ++ snd q /\ fst q = i + length pre.
Proof.
  induction n as [|n IH]; intros i s q.
  - cbn [upto]. split.
    + intros [<-|[]]. exists []. cbn. auto.
    + intros (pre & Hl & _ & Hs & Hi). left.
      destruct pre; [|cbn in Hl; lia]. destruct q; cbn in *. subst. f_equal. lia.
  - cbn [upto]. rewrite in_app_iff, in_flat_map. split.
    + intros [(m & Hm & Hq) | [<-|[]]].
      * destruct m as [j t].
        apply in_run_class in Hm as (c & Hc & Hs & Hj). cbn in Hs, Hj.
        apply IH in Hq as (pre & Hl & Hall & Ht & Hi).
        exists (c :: pre). cbn. rewrite Hc, Hall. subst.
        repeat split; auto; lia.
      * exists []. cbn. repeat split; auto; lia.
    + intros (pre & Hl & Hall & Hs & Hi).
      destruct pre as [|c pre].
      * right. left. destruct q; cbn in *. subst. f_equal. lia.
      * left. cbn in Hall. apply andb_true_iff in Hall as [Hc Hall].
        exists (S i, pre ++ snd q). split.
        -- apply in_run_class. exists c. cbn. subst. auto.
        -- apply IH. exists pre. cbn in Hl, Hi. repeat split; auto; lia.
Qed.

Lemma in_run_rep_class (cs : list citem) (lo : nat) (hi : option nat)
    (i : nat) (s : pystr) (q : pos) :
  In q (R (Rep (Class cs) lo hi) (i, s)) <->
  exists pre, lo <= length pre /\
              match hi with Some h => length pre <= lo + (h - lo) | None => True end /\
              forallb (mem cs) pre = true /\
              s = pre ++ snd q /\ fst q = i + length pre.
Proof.
  cbn [run]. rewrite in_flat_map. split.
  - intros ([j t] & Hm & Hq).
    apply in_iterate_class in Hm as (pre1 & Hl1 & Hall1 & Hs1 & Hj). cbn in Hs1, Hj.
    apply in_upto_class in Hq as (pre2 & Hl2 & Hall2 & Hs2 & Hi).
    exists (pre1 ++ pre2). rewrite length_app, forallb_app, Hall1, Hall2.
    repeat split; auto.
    + lia.
    + destruct hi; [lia | exact I].
    + subst. now rewrite <- app_assoc.
    + lia.
  - intros (pre & Hlo & Hhi & Hall & Hs & Hi).
    rewrite <- (firstn_skipn lo pre) in Hs, Hall.
    rewrite forallb_app in Hall. apply andb_true_iff in Hall as [Hall1 Hall2].
    assert (Hl1 : length (firstn lo pre) = lo) by (rewrite length_firstn; lia).
    assert (Hl2 : length (skipn lo pre) = length pre - lo) by apply length_skipn.
    exists (i + lo, skipn lo pre ++ snd q). split.
    + apply in_iterate_class. exists (firstn lo pre). cbn.
      rewrite <- app_assoc in Hs. auto.
    + apply in_upto_class. exists (skipn lo pre). cbn [snd fst].
      repeat split; auto.
      * destruct hi; [lia|]. rewrite length_app. lia.
      * lia.
Qed.

Lemma in_run_eol (p q : pos) :
  In q (R Eol p) <-> q = p /\ (snd p = [] \/ snd p = [NEWLINE]).
Proof.
  cbn. destruct (snd p) as [|c [|c' rest]].
  - split; [intros [<-|[]]; auto | intros [-> _]; now left].
  - destruct (N.eqb_spec c NEWLINE) as [->|Hc].
    + split; [intros [<-|[]]; auto | intros [-> _]; now left].
    + split; [intros [] | intros [_ [H|H]]; congruence].
  - split; [intros [] | intros [_ [H|H]]; discriminate].
Qed.

Lemma in_run_seq (r1 r2 : regex) (p q : pos) :
  In q (R (Seq r1 r2) p) <-> exists m, In m (R r1 p) /\ In q (R r2 m).
Proof. cbn [run]. apply in_flat_map. Qed.

Lemma in_run_bol (p q : pos) :
  In q (R Bol p) <-> q = p /\ fst p = 0.
Proof.
  cbn. destruct (Nat.eqb_spec (fst p) 0) as [E|E].
  - split; [intros [<-|[]]; auto | intros [-> _]; now left].
  - split; [intros [] | intros [_ H]; contradiction].
Qed.

Lemma forallb_eq {A : Type} (f g : A -> bool) (l : list A) :
  (forall x, f x = g x) -> forallb f l = forallb g l.
Proof. intros E. induction l as [|x l IH]; cbn; [reflexivity|]. now rewrite E, IH. Qed.

Lemma matched_accepts (r : regex) (s : pystr) :
  matched (re_match isdecimal isalnum r s) = true <-> accepts r s.
Proof.
  unfold re_match, accepts. destruct (R r (0, s)) as [|q l]; cbn.
  - split; [discriminate | intros [q []]].
  - split; [exists q; now left | reflexivity].
Qed.

Lemma accepts_pattern1 (s : pystr) :
  accepts (nth 0 symbol_patterns_src Eps) s <->
  exists body tail, s = body ++ tail /\ at_eol tail /\
                    letter_digits isdecimal body = true.
Proof.
  unfold accepts. cbn [nth symbol_patterns_src concatenation]. split.
  - intros (q & Hq).
    apply in_run_seq in Hq as (m1 & H1 & Hq). apply in_run_bol in H1 as [-> _].
    apply in_run_seq in Hq as ([j t] & H2 & Hq).
    apply in_run_class in H2 as (c & Hc & Hs & _). cbn [snd] in Hs.
    apply in_run_seq in Hq as (m3 & H3 & Hq).
    apply in_run_rep_class in H3 as (ds & Hlo & Hhi & Hall & Ht & _).
    cbn [snd] in Ht.
    apply in_run_eol in Hq as [-> Heol].
    exists (c :: ds), (snd m3). repeat split.
    + subst. reflexivity.
    + exact Heol.
    + cbn [letter_digits]. cbn in Hc. rewrite orb_false_r in Hc.
      unfold ascii_upper. change (code "A") with 65%N in Hc.
      change (code "Z") with 90%N in Hc. rewrite Hc.
      rewrite (forallb_eq _ (class_mem isdecimal isalnum [CDigit]));
        [|intros x; cbn; now rewrite orb_false_r].
      rewrite Hall, andb_true_r. cbn [andb].
      apply andb_true_iff. split; apply Nat.leb_le; cbn in Hhi; lia.
  - intros (body & tail & Hs & Heol & Hshape).
    destruct body as [|c ds]; [discriminate|]. cbn [letter_digits] in Hshape.
    apply andb_true_iff in Hshape as [Hshape Hall].
    apply andb_true_iff in Hshape as [Hshape Hhi].
    apply andb_true_iff in Hshape as [Hc Hlo].
    apply Nat.leb_le in Hlo, Hhi.
    exists (1 + length ds, tail).
    apply in_run_seq. exists (0, s). split; [apply in_run_bol; auto|].
    apply in_run_seq. exists (1, ds ++ tail). split.
    { apply in_run_class. exists c. cbn [snd fst]. repeat split; auto.
      cbn. rewrite orb_false_r. exact Hc. }
    apply in_run_seq. exists (1 + length ds, tail). split.
    { apply in_run_rep_class. exists ds. cbn [snd fst].
      split; [exact Hlo|]. split; [cbn; lia|]. split; [|split; reflexivity].
      rewrite (forallb_eq _ isdecimal); [exact Hall|].
      intros x; cbn; now rewrite orb_false_r. }
    apply in_run_eol. split; [reflexivity | exact Heol].
Qed.

Lemma accepts_pattern2 (s : pystr) :
  accepts (nth 1 symbol_patterns_src Eps) s <->
  exists body tail, s = body ++ tail /\ at_eol tail /\
                    upper_letters body = true.
Proof.
  unfold accepts. cbn [nth symbol_patterns_src concatenation]. split.
  - intros (q & Hq).
    apply in_run_seq in Hq as (m1 & H1 & Hq). apply in_run_bol in H1 as [-> _].
    apply in_run_seq in Hq as (m2 & H2 & Hq).
    apply in_run_rep_class in H2 as (us & Hlo & Hhi & Hall & Hs & _).
    cbn [snd] in Hs.
    apply in_run_eol in Hq as [-> Heol].
    exists us, (snd m2). repeat split; auto.
    unfold upper_letters.
    rewrite (forallb_eq _ (class_mem isdecimal isalnum
                             [CRange (code "A") (code "Z")]));
      [|intros x; cbn; now rewrite orb_false_r].
    rewrite Hall, andb_true_r.
    apply andb_true_iff. split; apply Nat.leb_le; cbn in Hhi; lia.
  - intros (body & tail & Hs & Heol & Hshape).
    unfold upper_letters in Hshape.
    apply andb_true_iff in Hshape as [Hshape Hall].
    apply andb_true_iff in Hshape as [Hlo Hhi].
    apply Nat.leb_le in Hlo, Hhi.
    exists (length body, tail).
    apply in_run_seq. exists (0, s). split; [apply in_run_bol; auto|].
    apply in_run_seq. exists (length body, tail). split.
    { apply in_run_rep_class. exists body. cbn [snd fst].
      split; [exact Hlo|]. split; [cbn; lia|]. split; [|split; auto].
      rewrite (forallb_eq _ ascii_upper); [exact Hall|].
      intros x; cbn; now rewrite orb_false_r. }
    apply in_run_eol. split; [reflexivity | exact Heol].
Qed.

Lemma first_class_mem (c : N) :
  class_mem isdecimal isalnum
    [CRange (code "a") (code "z"); CRange (code "A") (code "Z");
     CChar UNDERSCORE] c
  = ascii_letter c || (c =? UNDERSCORE)%N.
Proof.
  cbn. unfold ascii_letter, ascii_upper, ascii_lower.
  change (code "a") with 97%N. change (code "z") with 122%N.
  change (code "A") with 65%N. change (code "Z") with 90%N.
  destruct ((97 <=? c)%N && (c <=? 122)%N), ((65 <=? c)%N && (c <=? 90)%N),
    (c =? UNDERSCORE)%N; reflexivity.
Qed.

Lemma accepts_pattern3 (s : pystr) :
  accepts (nth 2 symbol_patterns_src Eps) s <->
  exists body tail, s = body ++ tail /\ at_eol tail /\
                    identifier (unicode_word isalnum) body = true.
Proof.
  unfold accepts. cbn [nth symbol_patterns_src concatenation]. split.
  - intros (q & Hq).
    apply in_run_seq in Hq as (m1 & H1 & Hq). apply in_run_bol in H1 as [-> _].
    apply in_run_seq in Hq as ([j t] & H2 & Hq).
    apply in_run_class in H2 as (c & Hc & Hs & _). cbn [snd] in Hs.
    apply in_run_seq in Hq as (m3 & H3 & Hq).
    apply in_run_rep_class in H3 as (ws & _ & _ & Hall & Ht & _).
    cbn [snd] in Ht.
    apply in_run_eol in Hq as [-> Heol].
    exists (c :: ws), (snd m3). repeat split.
    + subst. reflexivity.
    + exact Heol.
    + cbn [identifier]. rewrite first_class_mem in Hc. rewrite Hc.
      rewrite (forallb_eq _ (class_mem isdecimal isalnum [CWord]));
        [exact Hall|].
      intros x; cbn; unfold unicode_word; now rewrite orb_false_r.
  - intros (body & tail & Hs & Heol & Hshape).
    destruct body as [|c ws]; [discriminate|]. cbn [identifier] in Hshape.
    apply andb_true_iff in Hshape as [Hc Hall].
    exists (1 + length ws, tail).
    apply in_run_seq. exists (0, s). split; [apply in_run_bol; auto|].
    apply in_run_seq. exists (1, ws ++ tail). split.
    { apply in_run_class. exists c. cbn [snd fst]. repeat split; auto.
      rewrite first_class_mem. exact Hc. }
    apply in_run_seq. exists (1 + length ws, tail). split.
    { apply in_run_rep_class. exists ws. cbn [snd fst].
      split; [lia|]. split; [exact I|]. split; [|split; reflexivity].
      rewrite (forallb_eq _ (unicode_word isalnum)); [exact Hall|].
      intros x; cbn; unfold unicode_word; now rewrite orb_false_r. }
    apply in_run_eol. split; [reflexivity | exact Heol].
Qed.

Lemma accepts_symbol_regex (prefix s : pystr) :
  accepts (symbol_regex (init prefix)) s <->
  exists body tail, s = body ++ tail /\ at_eol tail /\
                    symbol_shape isdecimal isalnum body = true.
Proof.
  pose proof (accepts_pattern1 s) as P1.
  pose proof (accepts_pattern2 s) as P2.
  pose proof (accepts_pattern3 s) as P3.
  unfold accepts in *. cbn [nth] in P1, P2, P3.
  cbn [symbol_regex init symbol_patterns_src map alternation].
  unfold symbol_shape. split.
  - intros (q & Hq). cbn [run] in Hq.
    apply in_app_iff in Hq as [Hq|Hq]; [|apply in_app_iff in Hq as [Hq|Hq]].
    + destruct (proj1 P1 (ex_intro _ q Hq)) as (b & t & Hs & He & Hb).
      exists b, t. now rewrite Hb.
    + destruct (proj1 P2 (ex_intro _ q Hq)) as (b & t & Hs & He & Hb).
      exists b, t. rewrite Hb, orb_true_r. auto.
    + destruct (proj1 P3 (ex_intro _ q Hq)) as (b & t & Hs & He & Hb).
      exists b, t. rewrite Hb, orb_true_r. auto.
  - intros (b & t & Hs & He & Hb).
    apply orb_true_iff in Hb as [Hb|Hb]; [apply orb_true_iff in Hb as [Hb|Hb]|].
    + destruct (proj2 P1) as [q Hq]; [now exists b, t|].
      exists q. cbn [run]. apply in_app_iff. now left.
    + destruct (proj2 P2) as [q Hq]; [now exists b, t|].
      exists q. cbn [run]. apply in_app_iff. right. apply in_app_iff. now left.
    + destruct (proj2 P3) as [q Hq]; [now exists b, t|].
      exists q. cbn [run]. apply in_app_iff. right. apply in_app_iff. now right.
Qed.

(** [is_symbol] on a converter built by [__init__]: the length window, and
    one of the three shapes up to a final newline. *)
Lemma is_symbol_true_iff (prefix s : pystr) :
  is_symbol isdecimal isalnum (init prefix) s = true <->
  length_ok s = true /\
  exists body tail, s = body ++ tail /\ at_eol tail /\
                    symbol_shape isdecimal isalnum body = true.
Proof.
  unfold is_symbol, length_ok.
  rewrite <- accepts_symbol_regex, <- matched_accepts.
  destruct (Nat.eqb_spec (length s) 0) as [E0|E0];
    destruct (Nat.ltb_spec 20 (length s)) as [E20|E20]; cbn [orb].
  - split; [discriminate|]. intros [H _].
    apply andb_true_iff in H as [H _]. apply Nat.leb_le in H. lia.
  - split; [discriminate|]. intros [H _].
    apply andb_true_iff in H as [H _]. apply Nat.leb_le in H. lia.
  - split; [discriminate|]. intros [H _].
    apply andb_true_iff in H as [_ H]. apply Nat.leb_le in H. lia.
  - split.
    + intros H. split; [|exact H].
      apply andb_true_iff. split; apply Nat.leb_le; lia.
    + intros [_ H]. exact H.
Qed.

End RegexFacts.

(* ------------------------------------------------------------------ *)
(** ** The encoder *)

Section Encoder.

Variables isdecimal isalnum : N -> bool.
Variable float_str : float -> pystr.

Local Notation "'to_sexp''" := (to_sexp isdecimal isalnum float_str).
Local Notation "'encoded''" := (encoded isdecimal isalnum float_str).

Lemma escape_string_flat_map (prefix s : pystr) :
  escape_string isdecimal isalnum (init prefix) s =
  Ok (flat_map escape_code_point s).
Proof.
  unfold escape_string, re_sub. cbn [escape_pattern init].
  apply sub_from_escape.
Qed.

Lemma mapM_total {A B : Type} (f : A -> result B) (l : list A) :
  Forall (fun x => exists y, f x = Ok y) l -> exists ys, mapM f l = Ok ys.
Proof.
  induction 1 as [|x rest [y Hy] _ [ys IH]]; cbn.
  - now exists [].
  - rewrite Hy, IH. now exists (y :: ys).
Qed.

Lemma to_sexp_returns (prefix : pystr) (v : Value) :
  exists s, to_sexp' (init prefix) v = Ok s.
Proof.
  induction v as [| b | z | f | s | d | d | items IH | items IH]
    using Value_nested_ind; cbn [to_sexp].
  - eauto.
  - eauto.
  - eauto.
  - destruct (negb (f =? f)%float), (f =? infinity)%float,
      (f =? neg_infinity)%float; eauto.
  - destruct (is_symbol _ _ _ _); [eauto|].
    rewrite escape_string_flat_map. cbn [bind]. eauto.
  - eauto.
  - eauto.
  - destruct items as [|x rest]; [eauto|].
    destruct (is_list_of_records (x :: rest)).
    + match goal with
      | |- context [mapM ?f ?l] => destruct (mapM_total f l) as [ys Hys]
      end.
      { eapply Forall_impl; [|exact IH]. intros a [s Hs]. cbn beta.
        rewrite Hs. cbn [bind]. eauto. }
      rewrite Hys. cbn [bind]. eauto.
    + destruct (mapM_total (to_sexp' (init prefix)) (x :: rest) IH)
        as [ys Hys].
      rewrite Hys. cbn [bind]. eauto.
  - destruct items as [|x rest]; [eauto|].
    match goal with
    | |- context [mapM ?f ?l] => destruct (mapM_total f l) as [ys Hys]
    end.
    { eapply Forall_impl; [|exact IH]. intros [k a] [s Hs]. cbn [snd] in Hs.
      cbn beta iota zeta. rewrite Hs. cbn [bind]. eauto. }
    rewrite Hys. cbn [bind]. eauto.
Qed.

Lemma to_sexp_encoded (prefix : pystr) (v : Value) :
  to_sexp' (init prefix) v = Ok (encoded' (init prefix) v).
Proof.
  unfold encoded.
  destruct (to_sexp_returns prefix v) as [s ->]. reflexivity.
Qed.

Lemma to_sexp_records (prefix : pystr) (items : list Value) :
  items <> [] -> forallb is_dict items = true ->
  to_sexp' (init prefix) (VSequence items) =
  Ok (join (lit " ")
        (map (item_fragment prefix (encoded' (init prefix))) items)).
Proof.
  intros Hne Hall. destruct items as [|x rest]; [contradiction|].
  cbn [to_sexp]. unfold is_list_of_records. rewrite Hall.
  rewrite (mapM_ok _ (item_fragment prefix (encoded' (init prefix)))).
  - reflexivity.
  - apply Forall_forall. intros a _. rewrite to_sexp_encoded. reflexivity.
Qed.

Lemma to_sexp_plain_list (prefix : pystr) (items : list Value) :
  items <> [] -> forallb is_dict items = false ->
  to_sexp' (init prefix) (VSequence items) =
  Ok (lit "(" ++ join (lit " ") (map (encoded' (init prefix)) items)
        ++ lit ")").
Proof.
  intros Hne Hall. destruct items as [|x rest]; [contradiction|].
  cbn [to_sexp]. unfold is_list_of_records. rewrite Hall.
  rewrite (mapM_ok _ (encoded' (init prefix))).
  - reflexivity.
  - apply Forall_forall. intros a _. apply to_sexp_encoded.
Qed.

Lemma to_sexp_pairs (prefix : pystr) (items : list (pystr * Value)) :
  items <> [] ->
  to_sexp' (init prefix) (VMapping items) =
  Ok (join (lit " ")
        (map (pair_fragment prefix (encoded' (init prefix))) items)).
Proof.
  intros Hne. destruct items as [|x rest]; [contradiction|].
  cbn [to_sexp].
  rewrite (mapM_ok _ (pair_fragment prefix (encoded' (init prefix)))).
  - reflexivity.
  - apply Forall_forall. intros [k a] _. rewrite to_sexp_encoded. reflexivity.
Qed.

(** C3.  A non-empty sequence whose elements are all mappings encodes as
    the fragments [(<prefix>:item <encoded element>)] joined by single
    spaces, with no parentheses around the whole; any other non-empty
    sequence encodes as the encoded elements joined by single spaces inside
    exactly one pair of parentheses.  The empty sequence is not a list of
    records. *)
Theorem to_sexp_sequence (prefix : pystr) (items : list Value) :
  items <> [] ->
  (forallb is_dict items = true ->
   to_sexp' (init prefix) (VSequence items) =
   Ok (join (lit " ")
         (map (item_fragment prefix (encoded' (init prefix))) items)))
  /\ (forallb is_dict items = false ->
      to_sexp' (init prefix) (VSequence items) =
      Ok (lit "(" ++ join (lit " ") (map (encoded' (init prefix)) items)
            ++ lit ")"))
  /\ is_list_of_records [] = false.
Proof.
  intros Hne. split; [|split].
  - now apply to_sexp_records.
  - now apply to_sexp_plain_list.
  - reflexivity.
Qed.


(** C9.  The empty mapping and the empty sequence encode as [()], and that
    text stands at their position in the output: as the element of a plain
    sequence it is the element's text between its neighbours', as a record
    of a list of records it is what follows [<prefix>:item ] in the
    record's fragment, and as the value of a key it is what follows the
    prefixed key in the pair's fragment. *)
Theorem to_sexp_empty (self : YAMLToSExpConverter) (prefix key : pystr)
    (empty : Value) (before after : list Value)
    (pairs_before pairs_after : list (pystr * Value)) :
  empty = VMapping [] \/ empty = VSequence [] ->
  to_sexp' self empty = Ok (lit "()")
  /\ (forallb is_dict (before ++ empty :: after) = false ->
      to_sexp' (init prefix) (VSequence (before ++ empty :: after)) =
      Ok (lit "("
            ++ join (lit " ")
                 (map (encoded' (init prefix)) before
                    ++ lit "()" :: map (encoded' (init prefix)) after)
            ++ lit ")"))
  /\ (forallb is_dict (before ++ empty :: after) = true ->
      to_sexp' (init prefix) (VSequence (before ++ empty :: after)) =
      Ok (join (lit " ")
            (map (item_fragment prefix (encoded' (init prefix))) before
               ++ (lit "(" ++ prefix ++ lit ":item " ++ lit "()" ++ lit ")")
               :: map (item_fragment prefix (encoded' (init prefix))) after)))
  /\ to_sexp' (init prefix)
       (VMapping (pairs_before ++ (key, empty) :: pairs_after)) =
     Ok (join (lit " ")
           (map (pair_fragment prefix (encoded' (init prefix))) pairs_before
              ++ (lit "(" ++ (prefix ++ lit ":" ++ key) ++ lit " "
                    ++ lit "()" ++ lit ")")
              :: map (pair_fragment prefix (encoded' (init prefix)))
                   pairs_after)).
Proof.
  intros Hempty.
  assert (Hroot : forall c, to_sexp' c empty = Ok (lit "()"))
    by (intros c; destruct Hempty as [->| ->]; reflexivity).
  assert (Henc : encoded' (init prefix) empty = lit "()")
    by (unfold encoded; now rewrite Hroot).
  split; [apply Hroot|]. split; [|split].
  - intros Hplain. rewrite to_sexp_plain_list.
    + now rewrite map_app, map_cons, Henc.
    + now destruct before.
    + exact Hplain.
  - intros Hrec. rewrite to_sexp_records.
    + rewrite map_app, map_cons. unfold item_fragment at 2.
      now rewrite Henc.
    + now destruct before.
    + exact Hrec.
  - rewrite to_sexp_pairs by now destruct pairs_before.
    rewrite map_app, map_cons. unfold pair_fragment at 2. cbn [fst snd].
    now rewrite Henc.
Qed.

(** C5.  Escaping rewrites the text character by character: the double
    quote becomes backslash-quote, the backslash two backslashes, newline,
    carriage return and tab become backslash-n, backslash-r and backslash-t,
    every other character of U+0000 to U+001F and U+007F becomes backslash-x
    and its two lowercase hexadecimal digits, and every other character,
    non-ASCII ones included, is copied. *)
Theorem escape_string_spec (prefix s : pystr) :
  escape_string isdecimal isalnum (init prefix) s =
  Ok (flat_map escape_code_point s).
Proof. apply escape_string_flat_map. Qed.

(** C6.  A date encodes as [(make-date <y> <mm> <dd>)]: the year as
    [str] prints it, the month and the day with exactly two digits.  A
    datetime encodes as its date, whatever its time of day.  The date
    2024-03-07 encodes as [(make-date 2024 03 07)]. *)
Theorem to_sexp_date (prefix : pystr) (d : date) :
  valid_date d ->
  to_sexp' (init prefix) (VDate d) =
  Ok (lit "(make-date " ++ str_int (year d) ++ lit " "
        ++ two_digits (month d) ++ lit " " ++ two_digits (day d) ++ lit ")")
  /\ (forall hh mm ss us,
        to_sexp' (init prefix)
          (VDateTime (DateTime (year d) (month d) (day d) hh mm ss us)) =
        to_sexp' (init prefix) (VDate d))
  /\ to_sexp' (init prefix) (VDate (Date 2024 3 7)) =
     Ok (lit "(make-date 2024 03 07)").
Proof.
  intros (_ & Hm & Hd). split; [|split].
  - cbn [to_sexp]. unfold format_date.
    rewrite !format_02d_two_digits by lia. reflexivity.
  - intros. destruct d. reflexivity.
  - reflexivity.
Qed.

Lemma mapping_free_not_records (items : list Value) :
  forallb mapping_free items = true -> is_list_of_records items = false.
Proof.
  destruct items as [|x rest]; [reflexivity|].
  cbn. intros H. apply andb_true_iff in H as [Hx _].
  destruct x; try reflexivity. discriminate.
Qed.

(** C10.  A value tree with no mapping at any depth has the same
    encoding under every key prefix. *)
Theorem prefix_only_through_mappings (v : Value) :
  mapping_free v = true ->
  forall prefix1 prefix2 : pystr,
    to_sexp' (init prefix1) v = to_sexp' (init prefix2) v.
Proof.
  intros Hfree p1 p2. revert Hfree.
  induction v as [| b | z | f | s | d | d | items IH | items IH]
    using Value_nested_ind; intros Hfree; try reflexivity.
  - destruct items as [|x rest]; [reflexivity|].
    cbn [mapping_free] in Hfree.
    cbn [to_sexp].
    rewrite (mapping_free_not_records _ Hfree).
    rewrite (mapM_ext (to_sexp' (init p1)) (to_sexp' (init p2))).
    + reflexivity.
    + rewrite forallb_forall in Hfree. rewrite Forall_forall in IH.
      apply Forall_forall. intros a Ha. apply IH; auto.
  - discriminate.
Qed.

Lemma SFeqb_infinity (x : spec_float) (s : bool) :
  SFeqb x (S754_infinity s) = true -> x = S754_infinity s.
Proof.
  unfold SFeqb. destruct x as [s' | s' | | s' m e]; cbn.
  - destruct s; discriminate.
  - destruct s', s; try discriminate; reflexivity.
  - discriminate.
  - destruct s; discriminate.
Qed.

(** IEEE equality with an infinity holds for that infinity only. *)
Lemma eqb_infinity (f : float) :
  ((f =? infinity)%float = true -> f = infinity)
  /\ ((f =? neg_infinity)%float = true -> f = neg_infinity).
Proof.
  rewrite !FloatAxioms.eqb_spec. split; intros H.
  - change (Prim2SF infinity) with (S754_infinity false) in H.
    apply SFeqb_infinity in H.
    rewrite <- (SF2Prim_Prim2SF f), H. reflexivity.
  - change (Prim2SF neg_infinity) with (S754_infinity true) in H.
    apply SFeqb_infinity in H.
    rewrite <- (SF2Prim_Prim2SF f), H. reflexivity.
Qed.

(** X16.  Of a float, [to_sexp] tests NaN first, then the two infinities:
    NaN encodes as [+nan.0], positive infinity as [+inf.0], negative
    infinity as [-inf.0], and every other float, negative zero included, as
    the text [str] gives for it, unchanged. *)
Theorem to_sexp_float_dispatch (self : YAMLToSExpConverter) (f : float) :
  (is_nan f = true -> to_sexp' self (VFloat f) = Ok (lit "+nan.0"))
  /\ (f = infinity -> to_sexp' self (VFloat f) = Ok (lit "+inf.0"))
  /\ (f = neg_infinity -> to_sexp' self (VFloat f) = Ok (lit "-inf.0"))
  /\ (is_nan f = false -> f <> infinity -> f <> neg_infinity ->
      to_sexp' self (VFloat f) = Ok (float_str f)).
Proof.
  cbn [to_sexp]. unfold is_nan. split; [|split; [|split]].
  - now intros ->.
  - now intros ->.
  - now intros ->.
  - intros -> Hinf Hninf. cbn [negb].
    destruct (f =? infinity)%float eqn:E1.
    { exfalso. apply Hinf. now apply eqb_infinity. }
    destruct (f =? neg_infinity)%float eqn:E2.
    { exfalso. apply Hninf. now apply eqb_infinity. }
    reflexivity.
Qed.

Section Symbols.

(** The two forms of a text: quote-prefixed and verbatim, or double-quoted
    and escaped. *)
Lemma to_sexp_text (prefix s : pystr) :
  to_sexp' (init prefix) (VText s) =
  Ok (if is_symbol isdecimal isalnum (init prefix) s
      then SQUOTE :: s
      else DQUOTE :: flat_map escape_code_point s ++ [DQUOTE]).
Proof.
  cbn [to_sexp]. destruct (is_symbol _ _ _ _); [reflexivity|].
  now rewrite escape_string_flat_map.
Qed.

(** On ASCII the Unicode database classifies as everybody expects. *)
Hypothesis isalnum_ascii :
  forall c, (c < 128)%N -> isalnum c = ascii_letter c || ascii_digit c.
Hypothesis isdecimal_ascii :
  forall c, (c < 128)%N -> isdecimal c = ascii_digit c.

Lemma no_final_newline (s body tail : pystr) :
  last s 0%N <> NEWLINE -> s = body ++ tail -> at_eol tail -> s = body.
Proof.
  intros Hlast Hs [->| ->].
  - now rewrite app_nil_r in Hs.
  - exfalso. apply Hlast. rewrite Hs. apply last_last.
Qed.

Lemma symbol_shape_ascii (s : pystr) :
  symbol_shape isdecimal isalnum s = true ->
  forall c, In c s -> (c < 128)%N -> ascii_word c = true.
Proof.
  unfold symbol_shape. intros H c Hin Hc.
  apply orb_true_iff in H as [H|H]; [apply orb_true_iff in H as [H|H]|].
  - destruct s as [|x t]; [discriminate|]. cbn [letter_digits] in H.
    apply andb_true_iff in H as [H Hall].
    apply andb_true_iff in H as [H _]. apply andb_true_iff in H as [Hx _].
    destruct Hin as [<-|Hin].
    + unfold ascii_word, ascii_letter. now rewrite Hx.
    + rewrite forallb_forall in Hall. specialize (Hall c Hin).
      rewrite isdecimal_ascii in Hall by exact Hc.
      unfold ascii_word. rewrite Hall. now rewrite orb_true_r.
  - unfold upper_letters in H. apply andb_true_iff in H as [_ Hall].
    rewrite forallb_forall in Hall. specialize (Hall c Hin).
    unfold ascii_word, ascii_letter. now rewrite Hall.
  - destruct s as [|x t]; [discriminate|]. cbn [identifier] in H.
    apply andb_true_iff in H as [Hx Hall].
    destruct Hin as [<-|Hin].
    + unfold ascii_word. apply orb_true_iff in Hx as [Hx|Hx]; rewrite Hx;
        [reflexivity | now rewrite orb_true_r].
    + rewrite forallb_forall in Hall. specialize (Hall c Hin).
      unfold unicode_word in Hall. rewrite isalnum_ascii in Hall by exact Hc.
      unfold ascii_word. exact Hall.
Qed.

(** A symbol that does not end in a newline holds no character of the class
    of [escape_pattern]. *)
Lemma symbol_needs_no_escape (prefix s : pystr) :
  last s 0%N <> NEWLINE ->
  is_symbol isdecimal isalnum (init prefix) s = true ->
  forall c, In c s -> needs_escape c = false.
Proof.
  intros Hlast Hsym c Hin.
  apply is_symbol_true_iff in Hsym as (_ & body & tail & Hs & Heol & Hshape).
  rewrite <- (no_final_newline s body tail Hlast Hs Heol) in Hshape.
  destruct (N.ltb_spec c 128) as [Hc|Hc].
  - pose proof (symbol_shape_ascii s Hshape c Hin Hc) as Hw.
    unfold ascii_word, ascii_letter, ascii_upper, ascii_lower, ascii_digit in Hw.
    unfold needs_escape, is_control, DQUOTE, BACKSLASH, UNDERSCORE in *.
    repeat (apply orb_true_iff in Hw as [Hw|Hw]);
      try apply andb_true_iff in Hw as [H1 H2];
      try apply N.leb_le in H1; try apply N.leb_le in H2;
      try apply N.eqb_eq in Hw;
      repeat (apply orb_false_iff; split);
      first [apply N.eqb_neq | apply N.leb_gt]; lia.
  - unfold needs_escape, is_control, DQUOTE, BACKSLASH.
    repeat (apply orb_false_iff; split);
      first [apply N.eqb_neq | apply N.leb_gt]; lia.
Qed.

(** C1, amended.  For a text that does not end in a newline, [is_symbol]
    holds exactly when the length is between 1 and 20 and the text has one
    of three shapes: an uppercase ASCII letter and 4 to 6 characters of
    [\d]; 2 or 3 uppercase ASCII letters; an ASCII letter or underscore and
    then characters of [\w] only.  With [\d] and [\w] read in the Unicode
    database, every ASCII character of such a symbol is a letter, a digit
    or an underscore. *)
Theorem is_symbol_shapes (prefix s : pystr) :
  last s 0%N <> NEWLINE ->
  (is_symbol isdecimal isalnum (init prefix) s = true <->
   1 <= length s <= 20 /\
   (letter_digits isdecimal s = true \/ upper_letters s = true
    \/ identifier (unicode_word isalnum) s = true))
  /\ (is_symbol isdecimal isalnum (init prefix) s = true ->
      forall c, In c s -> (c < 128)%N -> ascii_word c = true).
Proof.
  intros Hlast.
  assert (Hiff : is_symbol isdecimal isalnum (init prefix) s = true <->
                 length_ok s = true /\ symbol_shape isdecimal isalnum s = true).
  { rewrite is_symbol_true_iff. split.
    - intros (Hlen & body & tail & Hs & Heol & Hshape). split; [exact Hlen|].
      now rewrite (no_final_newline s body tail Hlast Hs Heol).
    - intros (Hlen & Hshape). split; [exact Hlen|].
      exists s, []. rewrite app_nil_r. repeat split; auto. now left. }
  split.
  - rewrite Hiff. unfold length_ok, symbol_shape.
    rewrite andb_true_iff, !orb_true_iff, !Nat.leb_le. tauto.
  - intros H. apply Hiff in H as [_ H]. now apply symbol_shape_ascii.
Qed.

End Symbols.

End Encoder.

(* ------------------------------------------------------------------ *)
(** ** The properties on sample inputs *)

Lemma latin1_isalnum_ascii (c : N) :
  (c < 128)%N -> latin1_isalnum c = ascii_letter c || ascii_digit c.
Proof.
  intros Hc.
  pose (chk := fun n : N =>
    Bool.eqb (latin1_isalnum n) (ascii_letter n || ascii_digit n)).
  apply eqb_prop. change (chk c = true).
  apply (N_below chk 128); [vm_compute; reflexivity | exact Hc].
Qed.

Lemma latin1_isdecimal_ascii (c : N) :
  (c < 128)%N -> latin1_isdecimal c = ascii_digit c.
Proof. reflexivity. Qed.

(** C1 as claimed fails: [text_cafe] has a non-ASCII letter, so none of the
    three ASCII shapes, and is a symbol. *)
Lemma is_symbol_accepts_non_ascii :
  is_symbol latin1_isdecimal latin1_isalnum (init default_key_prefix) text_cafe
  = true
  /\ claimed_symbol text_cafe = false
  /\ forallb ascii_word text_cafe = false.
Proof. vm_compute. auto. Qed.

Lemma is_symbol_shapes_witness :
  (is_symbol latin1_isdecimal latin1_isalnum (init default_key_prefix)
     text_cafe = true <->
   1 <= length text_cafe <= 20 /\
   (letter_digits latin1_isdecimal text_cafe = true
    \/ upper_letters text_cafe = true
    \/ identifier (unicode_word latin1_isalnum) text_cafe = true))
  /\ (is_symbol latin1_isdecimal latin1_isalnum (init default_key_prefix)
        text_cafe = true ->
      forall c, In c text_cafe -> (c < 128)%N -> ascii_word c = true).
Proof.
  apply (is_symbol_shapes latin1_isdecimal latin1_isalnum
           latin1_isalnum_ascii latin1_isdecimal_ascii).
  intros H. vm_compute in H. discriminate H.
Defined.

(** C2 fails on the code: a text that ends in a newline passes the symbol
    test, since [$] also holds just before a final newline, and is emitted
    after a quote with its control character unescaped. *)
Theorem symbol_with_final_newline (float_str : float -> pystr) :
  is_symbol latin1_isdecimal latin1_isalnum (init default_key_prefix)
    text_abc_newline = true
  /\ to_sexp latin1_isdecimal latin1_isalnum float_str
       (init default_key_prefix) (VText text_abc_newline)
     = Ok (SQUOTE :: text_abc_newline)
  /\ existsb is_control text_abc_newline = true.
Proof. vm_compute. auto. Qed.

Lemma to_sexp_sequence_witness :
  to_sexp latin1_isdecimal latin1_isalnum float_str_sample
    (init default_key_prefix) (VSequence scalar_list)
  = Ok (lit "(1 " ++ [DQUOTE] ++ lit "a b" ++ [DQUOTE] ++ lit " #t)")
  /\ to_sexp latin1_isdecimal latin1_isalnum float_str_sample
       (init default_key_prefix) (VSequence record_list)
     = Ok (lit "(yaml:item (yaml:id 1)) (yaml:item (yaml:id 2))").
Proof.
  split.
  - destruct (to_sexp_sequence latin1_isdecimal latin1_isalnum
                float_str_sample default_key_prefix scalar_list)
      as (_ & Hplain & _).
    + discriminate.
    + rewrite Hplain by reflexivity. vm_compute. reflexivity.
  - destruct (to_sexp_sequence latin1_isdecimal latin1_isalnum
                float_str_sample default_key_prefix record_list)
      as (Hrecords & _ & _).
    + discriminate.
    + rewrite Hrecords by reflexivity. vm_compute. reflexivity.
Defined.


Lemma to_sexp_date_witness :
  to_sexp latin1_isdecimal latin1_isalnum float_str_sample
    (init default_key_prefix) (VDateTime (DateTime 2024 3 7 23 59 58 0))
  = Ok (lit "(make-date 2024 03 07)").
Proof.
  destruct (to_sexp_date latin1_isdecimal latin1_isalnum float_str_sample
              default_key_prefix (Date 2024 3 7)) as (_ & Htime & Hex).
  - unfold valid_date. cbn. lia.
  - exact (eq_trans (Htime 23 59 58 0)%Z Hex).
Defined.

Lemma to_sexp_empty_witness :
  to_sexp latin1_isdecimal latin1_isalnum float_str_sample
    (init default_key_prefix) (VSequence [VSequence []; VMapping []])
  = Ok (lit "(() ())")
  /\ to_sexp latin1_isdecimal latin1_isalnum float_str_sample
       (init default_key_prefix) (VSequence [VMapping []])
     = Ok (lit "(yaml:item ())")
  /\ to_sexp latin1_isdecimal latin1_isalnum float_str_sample
       (init default_key_prefix)
       (VMapping [(lit "a", VSequence []); (lit "b", VInt 1)])
     = Ok (lit "(yaml:a ()) (yaml:b 1)").
Proof.
  split; [|split].
  - exact (proj1 (proj2
      (to_sexp_empty latin1_isdecimal latin1_isalnum float_str_sample
         (init default_key_prefix) default_key_prefix (lit "a")
         (VMapping []) [VSequence []] [] [] [] (or_introl eq_refl)))
      eq_refl).
  - exact (proj1 (proj2 (proj2
      (to_sexp_empty latin1_isdecimal latin1_isalnum float_str_sample
         (init default_key_prefix) default_key_prefix (lit "a")
         (VMapping []) [] [] [] [] (or_introl eq_refl))))
      eq_refl).
  - exact (proj2 (proj2 (proj2
      (to_sexp_empty latin1_isdecimal latin1_isalnum float_str_sample
         (init default_key_prefix) default_key_prefix (lit "a")
         (VSequence []) [] [] [] [(lit "b", VInt 1)]
         (or_intror eq_refl))))).
Defined.

Lemma prefix_only_through_mappings_witness :
  to_sexp latin1_isdecimal latin1_isalnum float_str_sample
    (init (lit "yaml")) (VSequence scalar_list)
  = to_sexp latin1_isdecimal latin1_isalnum float_str_sample
      (init (lit "cfg")) (VSequence scalar_list).
Proof.
  apply (prefix_only_through_mappings latin1_isdecimal latin1_isalnum
           float_str_sample (VSequence scalar_list)).
  reflexivity.
Defined.

(* ------------------------------------------------------------------ *)
(** ** Further properties: escaping *)

Lemma hex_value_hex_digit (d : N) :
  (d < 16)%N -> hex_value (hex_digit d) = d.
Proof.
  intros Hd.
  pose (chk := fun n : N => (hex_value (hex_digit n) =? n)%N).
  apply N.eqb_eq. change (chk d = true).
  apply (N_below chk 16); [vm_compute; reflexivity | exact Hd].
Qed.

Lemma needs_escape_below (c : N) : needs_escape c = true -> (c < 128)%N.
Proof.
  unfold needs_escape, is_control, DQUOTE, BACKSLASH.
  rewrite !orb_true_iff, !N.eqb_eq, N.leb_le. lia.
Qed.

Lemma unescape_step_escape (c : N) (rest : pystr) :
  unescape_step (escape_code_point c ++ rest) = Some (c, rest).
Proof.
  destruct (needs_escape c) eqn:Hc.
  - pose proof (needs_escape_below c Hc) as Hlt.
    unfold escape_code_point.
    destruct (N.eqb_spec c DQUOTE) as [->|H1]; [reflexivity|].
    destruct (N.eqb_spec c BACKSLASH) as [->|H2]; [reflexivity|].
    destruct (N.eqb_spec c NEWLINE) as [->|H3]; [reflexivity|].
    destruct (N.eqb_spec c RETURN) as [->|H4]; [reflexivity|].
    destruct (N.eqb_spec c TAB) as [->|H5]; [reflexivity|].
    unfold needs_escape in Hc.
    apply N.eqb_neq in H1, H2. rewrite H1, H2 in Hc. cbn [orb] in Hc.
    rewrite Hc. cbn [app unescape_step].
    change (BACKSLASH =? BACKSLASH)%N with true. cbn match.
    change (code "x" =? DQUOTE)%N with false.
    change (code "x" =? BACKSLASH)%N with false.
    change (code "x" =? code "n")%N with false.
    change (code "x" =? code "r")%N with false.
    change (code "x" =? code "t")%N with false.
    change (code "x" =? code "x")%N with true. cbn match.
    rewrite !hex_value_hex_digit.
    + rewrite <- N.div_mod by lia. reflexivity.
    + apply N.mod_lt. lia.
    + apply N.Div0.div_lt_upper_bound. lia.
  - rewrite escape_code_point_other by exact Hc.
    cbn [app unescape_step].
    unfold needs_escape in Hc.
    apply orb_false_iff in Hc as [Hc _]. apply orb_false_iff in Hc as [_ Hb].
    now rewrite Hb.
Qed.

Lemma flat_map_escape_inj (s1 s2 : pystr) :
  flat_map escape_code_point s1 = flat_map escape_code_point s2 -> s1 = s2.
Proof.
  revert s2. induction s1 as [|c1 t1 IH]; intros [|c2 t2] H.
  - reflexivity.
  - apply (f_equal unescape_step) in H. cbn [flat_map] in H.
    rewrite unescape_step_escape in H. discriminate.
  - apply (f_equal unescape_step) in H. cbn [flat_map] in H.
    rewrite unescape_step_escape in H. discriminate.
  - apply (f_equal unescape_step) in H. cbn [flat_map] in H.
    rewrite !unescape_step_escape in H. injection H as -> H.
    f_equal. now apply IH.
Qed.

Lemma escape_code_point_control_free (c : N) :
  control_free (escape_code_point c) = true.
Proof.
  destruct (needs_escape c) eqn:Hc.
  - pose (chk := fun n : N =>
      negb (needs_escape n) || control_free (escape_code_point n)).
    assert (H : chk c = true).
    { apply (N_below chk 128); [vm_compute; reflexivity|].
      now apply needs_escape_below. }
    unfold chk in H. now rewrite Hc in H.
  - rewrite escape_code_point_other by exact Hc.
    unfold needs_escape in Hc. apply orb_false_iff in Hc as [_ Hc].
    unfold control_free. cbn. now rewrite Hc.
Qed.

Lemma escape_code_point_length (c : N) :
  length (escape_code_point c) =
  if needs_escape c
  then (if (c =? DQUOTE)%N || (c =? BACKSLASH)%N || (c =? NEWLINE)%N
           || (c =? RETURN)%N || (c =? TAB)%N then 2 else 4)
  else 1.
Proof.
  destruct (needs_escape c) eqn:Hc.
  - unfold escape_code_point.
    destruct (c =? DQUOTE)%N eqn:E1; [reflexivity|].
    destruct (c =? BACKSLASH)%N eqn:E2; [reflexivity|].
    destruct (c =? NEWLINE)%N; [reflexivity|].
    destruct (c =? RETURN)%N; [reflexivity|].
    destruct (c =? TAB)%N; [reflexivity|].
    unfold needs_escape in Hc. rewrite E1, E2 in Hc. cbn in Hc. now rewrite Hc.
  - now rewrite escape_code_point_other.
Qed.

Lemma flat_map_escape_length (s : pystr) :
  length s <= length (flat_map escape_code_point s) <= 4 * length s.
Proof.
  induction s as [|c t IH]; [cbn; lia|].
  cbn [flat_map]. rewrite length_app, escape_code_point_length. cbn [length].
  destruct (needs_escape c);
    [destruct ((c =? DQUOTE)%N || (c =? BACKSLASH)%N || (c =? NEWLINE)%N
                || (c =? RETURN)%N || (c =? TAB)%N)|]; lia.
Qed.

Lemma flat_map_escape_verbatim (s : pystr) :
  forallb (fun c => negb (needs_escape c)) s = true ->
  flat_map escape_code_point s = s.
Proof.
  induction s as [|c t IH]; [reflexivity|].
  cbn [forallb flat_map]. intros H. apply andb_true_iff in H as [Hc Ht].
  apply negb_true_iff in Hc.
  rewrite escape_code_point_other by exact Hc. cbn [app]. f_equal. now apply IH.
Qed.

Lemma control_free_app (a b : pystr) :
  control_free (a ++ b) = control_free a && control_free b.
Proof. apply forallb_app. Qed.

Lemma control_free_flat_map_escape (s : pystr) :
  control_free (flat_map escape_code_point s) = true.
Proof.
  induction s as [|c t IH]; [reflexivity|]. cbn [flat_map].
  now rewrite control_free_app, escape_code_point_control_free, IH.
Qed.

Section EscapingMore.

Variables isdecimal isalnum : N -> bool.

(** X5.  Escaping loses nothing: two texts have the same escaped form only
    when they are the same text. *)
Theorem escape_string_injective (prefix s1 s2 : pystr) :
  escape_string isdecimal isalnum (init prefix) s1 =
  escape_string isdecimal isalnum (init prefix) s2
  <-> s1 = s2.
Proof.
  split; [|now intros ->].
  rewrite !escape_string_flat_map. intros H.
  apply flat_map_escape_inj. congruence.
Qed.

(** X6.  The escaped form of a text holds no control character (U+0000 to
    U+001F, U+007F), and is at least as long as the text and at most four
    times as long. *)
Theorem escape_string_control_free (prefix s : pystr) :
  exists escaped,
    escape_string isdecimal isalnum (init prefix) s = Ok escaped
    /\ control_free escaped = true
    /\ length s <= length escaped <= 4 * length s.
Proof.
  exists (flat_map escape_code_point s).
  split; [apply escape_string_flat_map|].
  split; [apply control_free_flat_map_escape | apply flat_map_escape_length].
Qed.

(** X7.  Escaping returns the text unchanged exactly when the text holds no
    double quote, no backslash and no control character. *)
Theorem escape_string_verbatim_iff (prefix s : pystr) :
  escape_string isdecimal isalnum (init prefix) s = Ok s <->
  forallb (fun c => negb (needs_escape c)) s = true.
Proof.
  rewrite escape_string_flat_map. split.
  - intros H.
    assert (Hlen : length (flat_map escape_code_point s) = length s)
      by congruence.
    clear H. induction s as [|c t IH]; [reflexivity|].
    cbn [flat_map forallb] in *. rewrite length_app in Hlen.
    cbn [length] in Hlen.
    pose proof (flat_map_escape_length t) as [Ht _].
    rewrite escape_code_point_length in Hlen.
    destruct (needs_escape c).
    + destruct ((c =? DQUOTE)%N || (c =? BACKSLASH)%N || (c =? NEWLINE)%N
                  || (c =? RETURN)%N || (c =? TAB)%N); lia.
    + cbn [negb andb]. apply IH. lia.
  - intros H. now rewrite flat_map_escape_verbatim.
Qed.

End EscapingMore.

(* ------------------------------------------------------------------ *)
(** ** Further properties: the symbol test *)

Section SymbolsMore.

Variables isdecimal isalnum : N -> bool.
Variable float_str : float -> pystr.

(** X1.  [is_symbol] holds exactly when the length is between 1 and 20
    and the text, or the text without one final newline, has one of the
    three shapes of the patterns. *)
Theorem is_symbol_up_to_final_newline (prefix s : pystr) :
  is_symbol isdecimal isalnum (init prefix) s = true <->
  1 <= length s <= 20 /\
  exists body tail,
    s = body ++ tail /\ (tail = [] \/ tail = [NEWLINE]) /\
    (letter_digits isdecimal body = true \/ upper_letters body = true
     \/ identifier (unicode_word isalnum) body = true).
Proof.
  rewrite is_symbol_true_iff. unfold length_ok, symbol_shape, at_eol.
  rewrite andb_true_iff, !Nat.leb_le.
  split; intros (Hlen & body & tail & Hs & Heol & Hshape);
    (split; [exact Hlen|]); exists body, tail; (split; [exact Hs|]);
    (split; [exact Heol|]).
  - rewrite !orb_true_iff in Hshape. tauto.
  - rewrite !orb_true_iff. tauto.
Qed.

Lemma upper_is_letter (c : N) : ascii_upper c = true -> ascii_letter c = true.
Proof. unfold ascii_letter. now intros ->. Qed.

Section Redundancy.

(** In the Unicode database decimal digits and uppercase ASCII letters are
    alphanumeric. *)
Hypothesis isdecimal_isalnum : forall c, isdecimal c = true -> isalnum c = true.
Hypothesis upper_isalnum : forall c, ascii_upper c = true -> isalnum c = true.

Lemma forallb_weaken (f g : N -> bool) (l : pystr) :
  (forall c, f c = true -> g c = true) ->
  forallb f l = true -> forallb g l = true.
Proof.
  intros Hfg. rewrite !forallb_forall. intros H x Hx. auto.
Qed.

Lemma shapes_are_identifiers (body : pystr) :
  symbol_shape isdecimal isalnum body = identifier (unicode_word isalnum) body.
Proof.
  unfold symbol_shape.
  destruct (identifier (unicode_word isalnum) body) eqn:Hid;
    [now rewrite orb_true_r|].
  rewrite orb_false_r. apply orb_false_iff. split.
  - destruct body as [|c t]; [reflexivity|]. cbn [letter_digits identifier] in *.
    destruct (ascii_upper c) eqn:Hc; [|reflexivity].
    rewrite (upper_is_letter c Hc) in Hid. cbn [orb andb] in Hid.
    destruct (forallb isdecimal t) eqn:Hall; [|now rewrite andb_false_r].
    exfalso.
    assert (forallb (unicode_word isalnum) t = true); [|congruence].
    apply (forallb_weaken isdecimal); [|exact Hall].
    intros x Hx. unfold unicode_word. now rewrite (isdecimal_isalnum x Hx).
  - unfold upper_letters.
    destruct body as [|c t]; [reflexivity|]. cbn [identifier forallb] in *.
    destruct (ascii_upper c) eqn:Hc; [|now rewrite andb_false_r].
    rewrite (upper_is_letter c Hc) in Hid. cbn [orb andb] in Hid.
    destruct (forallb ascii_upper t) eqn:Hall; [|now rewrite andb_false_r].
    exfalso.
    assert (forallb (unicode_word isalnum) t = true); [|congruence].
    apply (forallb_weaken ascii_upper); [|exact Hall].
    intros x Hx. unfold unicode_word. now rewrite (upper_isalnum x Hx).
Qed.

(** X2.  The first two symbol patterns never decide: with the third
    pattern alone [is_symbol] gives the same answer on every text. *)
Theorem first_two_patterns_redundant (prefix s : pystr) :
  is_symbol isdecimal isalnum (init prefix) s =
  is_symbol isdecimal isalnum (third_pattern_only prefix) s.
Proof.
  apply eq_iff_eq_true. rewrite is_symbol_true_iff.
  unfold is_symbol at 1. cbn [symbol_regex third_pattern_only map alternation].
  assert (Hthird :
    matched (re_match isdecimal isalnum
               (Group (nth 2 symbol_patterns_src Eps)) s) = true <->
    exists body tail, s = body ++ tail /\ at_eol tail /\
                      identifier (unicode_word isalnum) body = true).
  { rewrite matched_accepts. rewrite <- accepts_pattern3.
    unfold accepts. cbn [run]. reflexivity. }
  unfold length_ok.
  destruct (Nat.eqb_spec (length s) 0) as [E0|E0];
    destruct (Nat.ltb_spec 20 (length s)) as [E20|E20]; cbn [orb].
  - split; [|discriminate]. intros [H _].
    apply andb_true_iff in H as [H _]. apply Nat.leb_le in H. lia.
  - split; [|discriminate]. intros [H _].
    apply andb_true_iff in H as [H _]. apply Nat.leb_le in H. lia.
  - split; [|discriminate]. intros [H _].
    apply andb_true_iff in H as [_ H]. apply Nat.leb_le in H. lia.
  - rewrite Hthird. split.
    + intros (_ & body & tail & Hs & Heol & Hshape).
      exists body, tail. now rewrite <- shapes_are_identifiers.
    + intros (body & tail & Hs & Heol & Hid). split.
      * apply andb_true_iff. split; apply Nat.leb_le; lia.
      * exists body, tail. now rewrite shapes_are_identifiers.
Qed.

End Redundancy.

Section FinalNewline.

(** In the Unicode database the newline is neither a digit nor
    alphanumeric. *)
Hypothesis newline_not_decimal : isdecimal NEWLINE = false.
Hypothesis newline_not_alnum : isalnum NEWLINE = false.

Lemma shape_without_newline (body : pystr) :
  symbol_shape isdecimal isalnum body = true -> ~ In NEWLINE body.
Proof.
  unfold symbol_shape. intros H Hin.
  apply orb_true_iff in H as [H|H]; [apply orb_true_iff in H as [H|H]|].
  - destruct body as [|c t]; [discriminate|]. cbn [letter_digits] in H.
    apply andb_true_iff in H as [H Hall].
    apply andb_true_iff in H as [H _]. apply andb_true_iff in H as [Hc _].
    destruct Hin as [->|Hin]; [discriminate|].
    rewrite forallb_forall in Hall. specialize (Hall _ Hin). congruence.
  - unfold upper_letters in H. apply andb_true_iff in H as [_ Hall].
    rewrite forallb_forall in Hall. specialize (Hall _ Hin). discriminate.
  - destruct body as [|c t]; [discriminate|]. cbn [identifier] in H.
    apply andb_true_iff in H as [Hc Hall].
    destruct Hin as [->|Hin]; [discriminate|].
    rewrite forallb_forall in Hall. specialize (Hall _ Hin).
    unfold unicode_word in Hall. rewrite newline_not_alnum in Hall.
    discriminate.
Qed.

(** X3.  A final newline is invisible to the symbol test: for a text of at
    most 19 characters that does not end in a newline, the text followed by
    a newline is a symbol exactly when the text is, and it is then emitted
    after a quote with the newline in it. *)
Theorem is_symbol_ignores_final_newline (prefix s : pystr) :
  last s 0%N <> NEWLINE -> length s < 20 ->
  is_symbol isdecimal isalnum (init prefix) (s ++ [NEWLINE]) =
  is_symbol isdecimal isalnum (init prefix) s
  /\ (is_symbol isdecimal isalnum (init prefix) s = true ->
      to_sexp isdecimal isalnum float_str (init prefix)
        (VText (s ++ [NEWLINE])) = Ok (SQUOTE :: s ++ [NEWLINE])).
Proof.
  intros Hlast Hlen.
  assert (Heq : is_symbol isdecimal isalnum (init prefix) (s ++ [NEWLINE]) =
                is_symbol isdecimal isalnum (init prefix) s).
  { apply eq_iff_eq_true. rewrite !is_symbol_true_iff. unfold length_ok.
    rewrite !andb_true_iff, !Nat.leb_le, length_app. cbn [length]. split.
    - intros (_ & body & tail & Hs & [->| ->] & Hshape).
      + exfalso. apply (shape_without_newline body Hshape).
        rewrite app_nil_r in Hs. rewrite <- Hs. apply in_or_app. right. now left.
      + apply app_inj_tail in Hs as [-> _]. split.
        * split; [|lia]. destruct body; [discriminate|cbn; lia].
        * exists body, []. rewrite app_nil_r. repeat split; auto. now left.
    - intros (Hl & body & tail & Hs & Heol & Hshape).
      rewrite <- (no_final_newline s body tail Hlast Hs Heol) in Hshape.
      split; [lia|]. exists s, [NEWLINE]. repeat split; auto. now right. }
  split; [exact Heq|].
  intros Hsym. rewrite to_sexp_text, Heq, Hsym. reflexivity.
Qed.

End FinalNewline.

Section Clean.

Hypothesis isalnum_ascii :
  forall c, (c < 128)%N -> isalnum c = ascii_letter c || ascii_digit c.
Hypothesis isdecimal_ascii :
  forall c, (c < 128)%N -> isdecimal c = ascii_digit c.

(** X4.  A symbol that does not end in a newline is left unchanged by
    escaping: the quote-prefixed form skips nothing the escaped form would
    have rewritten. *)
Theorem symbol_escapes_to_itself (prefix s : pystr) :
  last s 0%N <> NEWLINE ->
  is_symbol isdecimal isalnum (init prefix) s = true ->
  escape_string isdecimal isalnum (init prefix) s = Ok s.
Proof.
  intros Hlast Hsym. rewrite escape_string_flat_map.
  rewrite flat_map_escape_verbatim; [reflexivity|].
  apply forallb_forall. intros c Hin. apply negb_true_iff.
  exact (symbol_needs_no_escape isdecimal isalnum isalnum_ascii
           isdecimal_ascii prefix s Hlast Hsym c Hin).
Qed.

End Clean.

End SymbolsMore.

(* ------------------------------------------------------------------ *)
(** ** Further properties: scalars and collisions *)

Lemma lit_inj (a b : string) : lit a = lit b -> a = b.
Proof.
  unfold lit. intros H.
  rewrite <- (string_of_list_ascii_of_string a),
          <- (string_of_list_ascii_of_string b).
  f_equal.
  revert H. generalize (list_ascii_of_string a) (list_ascii_of_string b).
  induction l as [|x l IH]; intros [|y l'] H; try discriminate.
  - reflexivity.
  - cbn in H. injection H as Hx Hl. f_equal.
    + rewrite <- (ascii_N_embedding x), <- (ascii_N_embedding y). now f_equal.
    + now apply IH.
Qed.

Lemma str_int_inj (a b : Z) : str_int a = str_int b -> a = b.
Proof.
  unfold str_int. intros H. apply lit_inj in H.
  assert (Hparse : forall z,
    DecimalString.NilZero.int_of_string
      (DecimalString.NilZero.string_of_int (Z.to_int z)) = Some (Z.to_int z)).
  { intros z. apply DecimalString.NilZero.isi; destruct z; cbn; try discriminate.
    - intros [= E]. now apply DecimalPos.Unsigned.to_uint_nonnil in E.
    - intros [= E]. now apply DecimalPos.Unsigned.to_uint_nonnil in E. }
  apply DecimalZ.to_int_inj.
  pose proof (Hparse a) as Ha. rewrite H, Hparse in Ha. now injection Ha.
Qed.

Lemma two_digits_inj (a b : Z) :
  (0 <= a < 100)%Z -> (0 <= b < 100)%Z -> two_digits a = two_digits b -> a = b.
Proof.
  unfold two_digits, dec_digit. intros Ha Hb H.
  pose proof (f_equal (fun l => Z.of_N (nth 0 l 0%N)) H) as H1.
  pose proof (f_equal (fun l => Z.of_N (nth 1 l 0%N)) H) as H2.
  cbn [nth] in H1, H2.
  rewrite !Z2N.id in H1, H2 by (Z.div_mod_to_equations; lia).
  Z.div_mod_to_equations. lia.
Qed.

Lemma app_inv_by_length {A : Type} (a c b d : list A) :
  a ++ b = c ++ d -> length b = length d -> a = c /\ b = d.
Proof.
  revert c. induction a as [|x a IH]; intros [|y c] H Hl.
  - auto.
  - exfalso. apply (f_equal (@length A)) in H. cbn in H.
    rewrite length_app in H. lia.
  - exfalso. apply (f_equal (@length A)) in H. cbn in H.
    rewrite length_app in H. lia.
  - cbn in H. injection H as -> H. destruct (IH c H Hl) as [-> ->]. auto.
Qed.

Section ScalarsMore.

Variables isdecimal isalnum : N -> bool.
Variable float_str : float -> pystr.

(** X9.  Two integers have the same encoding only when they are equal. *)
Theorem to_sexp_int_injective (self : YAMLToSExpConverter) (a b : Z) :
  to_sexp isdecimal isalnum float_str self (VInt a) =
  to_sexp isdecimal isalnum float_str self (VInt b)
  <-> a = b.
Proof.
  split; [|now intros ->].
  cbn [to_sexp]. intros H. apply str_int_inj. congruence.
Qed.

(** X10.  Two dates (with months in 1..12 and days in 1..31) have the same
    encoding only when they are the same date. *)
Theorem to_sexp_date_injective (self : YAMLToSExpConverter) (d1 d2 : date) :
  valid_date d1 -> valid_date d2 ->
  (to_sexp isdecimal isalnum float_str self (VDate d1) =
   to_sexp isdecimal isalnum float_str self (VDate d2)
   <-> d1 = d2).
Proof.
  intros (_ & Hm1 & Hd1) (_ & Hm2 & Hd2). split; [|now intros ->].
  cbn [to_sexp]. intros Hok.
  assert (H : format_date d1 = format_date d2) by congruence. clear Hok.
  unfold format_date in H.
  rewrite !format_02d_two_digits in H by lia.
  apply app_inv_head in H.
  apply app_inv_by_length in H as [Hy H]; [|reflexivity].
  apply app_inv_head in H.
  apply app_inv_by_length in H as [Hm H]; [|reflexivity].
  apply app_inv_head in H. apply app_inv_tail in H.
  destruct d1 as [y1 m1 dd1], d2 as [y2 m2 dd2]. cbn [year month day] in *.
  f_equal.
  - now apply str_int_inj.
  - apply two_digits_inj; [lia | lia | assumption].
  - apply two_digits_inj; [lia | lia | assumption].
Qed.

(** X11.  A sequence of one record and a mapping whose only key is [item]
    and whose value is that record have the same encoding: the output does
    not tell them apart. *)
Theorem single_record_list_is_item_mapping (prefix : pystr)
    (record : list (pystr * Value)) :
  to_sexp isdecimal isalnum float_str (init prefix)
    (VSequence [VMapping record]) =
  to_sexp isdecimal isalnum float_str (init prefix)
    (VMapping [(lit "item", VMapping record)]).
Proof.
  rewrite to_sexp_records by (reflexivity || discriminate).
  rewrite to_sexp_pairs by discriminate.
  cbn [map join]. unfold item_fragment, pair_fragment. cbn [fst snd].
  rewrite <- !app_assoc. reflexivity.
Qed.

End ScalarsMore.

(* ------------------------------------------------------------------ *)
(** ** Further properties: what the output holds *)

Lemma str_int_first_char (z : Z) : opens_text (hd 0%N (str_int z)) = false.
Proof.
  unfold str_int. destruct (Z.to_int z) as [u|u]; [|reflexivity].
  destruct u; reflexivity.
Qed.

Lemma control_free_join (sep : pystr) (parts : list pystr) :
  control_free sep = true ->
  Forall (fun p => control_free p = true) parts ->
  control_free (join sep parts) = true.
Proof.
  intros Hsep. induction 1 as [|p rest Hp Hrest IH]; [reflexivity|].
  destruct rest as [|q rest]; [exact Hp|].
  change (join sep (p :: q :: rest)) with (p ++ sep ++ join sep (q :: rest)).
  now rewrite !control_free_app, Hp, Hsep, IH.
Qed.

Lemma control_free_uint (u : Decimal.uint) :
  control_free (lit (DecimalString.NilEmpty.string_of_uint u)) = true.
Proof. induction u; cbn in *; auto. Qed.

Lemma control_free_str_int (z : Z) : control_free (str_int z) = true.
Proof.
  unfold str_int. destruct (Z.to_int z) as [u|u]; cbn.
  - destruct u; try reflexivity; apply (control_free_uint (_ u)).
  - destruct u; try reflexivity; apply (control_free_uint (_ u)).
Qed.

Lemma control_free_zfill (width : nat) (digits : pystr) :
  control_free digits = true -> control_free (zfill width digits) = true.
Proof.
  intros H. unfold zfill. rewrite control_free_app, H, andb_true_r.
  induction (width - length digits); [reflexivity | exact IHn].
Qed.

Lemma control_free_format_02d (z : Z) : control_free (format_02d z) = true.
Proof.
  unfold format_02d. destruct (z <? 0)%Z.
  - rewrite control_free_app. cbn [lit]. 
    now rewrite control_free_zfill by apply control_free_str_int.
  - apply control_free_zfill, control_free_str_int.
Qed.

Section Hygiene.

Variables isdecimal isalnum : N -> bool.
Variable float_str : float -> pystr.

Hypothesis isalnum_ascii :
  forall c, (c < 128)%N -> isalnum c = ascii_letter c || ascii_digit c.
Hypothesis isdecimal_ascii :
  forall c, (c < 128)%N -> isdecimal c = ascii_digit c.
Hypothesis float_str_control_free :
  forall f, control_free (float_str f) = true.

(** X12.  When the key prefix and the mapping keys hold no control
    character and no text of the tree is a symbol that ends in a newline,
    the encoding of the tree holds no control character. *)
Theorem to_sexp_control_free (prefix : pystr) (v : Value) :
  control_free prefix = true ->
  all_keys control_free v = true ->
  all_texts (fun s => negb (is_symbol isdecimal isalnum (init prefix) s
                            && ends_in_newline s)) v = true ->
  control_free (encoded isdecimal isalnum float_str (init prefix) v) = true.
Proof.
  intros Hprefix.
  induction v as [| b | z | f | s | d | d | items IH | items IH]
    using Value_nested_ind; intros Hkeys Htexts.
  - reflexivity.
  - destruct b; reflexivity.
  - apply control_free_str_int.
  - unfold encoded. cbn [to_sexp].
    destruct (negb (f =? f)%float); [reflexivity|].
    destruct (f =? infinity)%float; [reflexivity|].
    destruct (f =? neg_infinity)%float; [reflexivity|].
    apply float_str_control_free.
  - unfold encoded. rewrite to_sexp_text. cbn [all_texts] in Htexts.
    destruct (is_symbol isdecimal isalnum (init prefix) s) eqn:Hsym.
    + cbn [andb] in Htexts. apply negb_true_iff in Htexts.
      unfold ends_in_newline in Htexts. apply N.eqb_neq in Htexts.
      change (control_free (SQUOTE :: s)) with (control_free s).
      apply forallb_forall. intros c Hin. apply negb_true_iff.
      pose proof (symbol_needs_no_escape isdecimal isalnum isalnum_ascii
                    isdecimal_ascii prefix s Htexts Hsym c Hin) as Hc.
      unfold needs_escape in Hc. now apply orb_false_iff in Hc as [_ Hc].
    + change (DQUOTE :: flat_map escape_code_point s ++ [DQUOTE])
        with ([DQUOTE] ++ flat_map escape_code_point s ++ [DQUOTE]).
      now rewrite !control_free_app, control_free_flat_map_escape.
  - unfold encoded. cbn [to_sexp]. unfold format_date.
    now rewrite !control_free_app, control_free_str_int,
      !control_free_format_02d.
  - unfold encoded. cbn [to_sexp]. unfold format_date.
    now rewrite !control_free_app, control_free_str_int,
      !control_free_format_02d.
  - cbn [all_keys all_texts] in Hkeys, Htexts.
    assert (Hitems : Forall (fun x =>
      control_free (encoded isdecimal isalnum float_str (init prefix) x)
      = true) items).
    { rewrite Forall_forall in *. rewrite forallb_forall in Hkeys, Htexts.
      intros x Hx. apply IH; auto. }
    destruct items as [|x rest]; [reflexivity|].
    unfold encoded at 1.
    destruct (forallb is_dict (x :: rest)) eqn:Hrec.
    + rewrite to_sexp_records by (assumption || discriminate).
      apply control_free_join; [reflexivity|].
      apply Forall_map. eapply Forall_impl; [|exact Hitems].
      intros a Ha. unfold item_fragment.
      now rewrite !control_free_app, Hprefix, Ha.
    + rewrite to_sexp_plain_list by (assumption || discriminate).
      rewrite !control_free_app.
      rewrite control_free_join; [reflexivity | reflexivity |].
      apply Forall_map. exact Hitems.
  - cbn [all_keys all_texts] in Hkeys, Htexts.
    destruct items as [|x rest]; [reflexivity|].
    unfold encoded at 1. rewrite to_sexp_pairs by discriminate.
    apply control_free_join; [reflexivity|].
    apply Forall_map. rewrite Forall_forall in *.
    rewrite forallb_forall in Hkeys, Htexts.
    intros kv Hin. specialize (Hkeys kv Hin).
    apply andb_true_iff in Hkeys as [Hk Hv].
    unfold pair_fragment.
    rewrite !control_free_app, Hprefix, Hk.
    rewrite (IH kv Hin Hv (Htexts kv Hin)). reflexivity.
Qed.

End Hygiene.

(* ------------------------------------------------------------------ *)
(** ** The further properties on sample inputs *)

Lemma latin1_isdecimal_isalnum (c : N) :
  latin1_isdecimal c = true -> latin1_isalnum c = true.
Proof.
  unfold latin1_isdecimal, latin1_isalnum. intros ->.
  now rewrite orb_true_r.
Qed.

Lemma latin1_upper_isalnum (c : N) :
  ascii_upper c = true -> latin1_isalnum c = true.
Proof.
  unfold latin1_isalnum, ascii_letter. now intros ->.
Qed.

Lemma float_str_sample_control_free (f : float) :
  control_free (float_str_sample f) = true.
Proof.
  unfold float_str_sample.
  destruct (f =? 1.5)%float, (f =? 0.25)%float, (f =? 1e22)%float;
    reflexivity.
Qed.

Lemma float_str_sample_first_char (f : float) :
  opens_text (hd 0%N (float_str_sample f)) = false.
Proof.
  unfold float_str_sample.
  destruct (f =? 1.5)%float, (f =? 0.25)%float, (f =? 1e22)%float;
    reflexivity.
Qed.

Lemma first_two_patterns_redundant_witness :
  is_symbol latin1_isdecimal latin1_isalnum (init default_key_prefix)
    (lit "A1234")
  = is_symbol latin1_isdecimal latin1_isalnum
      (third_pattern_only default_key_prefix) (lit "A1234").
Proof.
  exact (first_two_patterns_redundant latin1_isdecimal latin1_isalnum
           latin1_isdecimal_isalnum latin1_upper_isalnum
           default_key_prefix (lit "A1234")).
Defined.

Lemma is_symbol_ignores_final_newline_witness :
  is_symbol latin1_isdecimal latin1_isalnum (init default_key_prefix)
    (lit "abc" ++ [NEWLINE])
  = is_symbol latin1_isdecimal latin1_isalnum (init default_key_prefix)
      (lit "abc")
  /\ (is_symbol latin1_isdecimal latin1_isalnum (init default_key_prefix)
        (lit "abc") = true ->
      to_sexp latin1_isdecimal latin1_isalnum float_str_sample
        (init default_key_prefix) (VText (lit "abc" ++ [NEWLINE]))
      = Ok (SQUOTE :: lit "abc" ++ [NEWLINE])).
Proof.
  apply (is_symbol_ignores_final_newline latin1_isdecimal latin1_isalnum
           float_str_sample).
  - reflexivity.
  - reflexivity.
  - intros H. vm_compute in H. discriminate H.
  - cbn. lia.
Defined.

Lemma symbol_escapes_to_itself_witness :
  escape_string latin1_isdecimal latin1_isalnum (init default_key_prefix)
    text_cafe = Ok text_cafe.
Proof.
  apply (symbol_escapes_to_itself latin1_isdecimal latin1_isalnum
           latin1_isalnum_ascii latin1_isdecimal_ascii).
  - intros H. vm_compute in H. discriminate H.
  - vm_compute. reflexivity.
Defined.

Lemma to_sexp_date_injective_witness :
  to_sexp latin1_isdecimal latin1_isalnum float_str_sample
    (init default_key_prefix) (VDate (Date 2024 3 7))
  = to_sexp latin1_isdecimal latin1_isalnum float_str_sample
      (init default_key_prefix) (VDate (Date 2024 7 3))
  <-> Date 2024 3 7 = Date 2024 7 3.
Proof.
  apply (to_sexp_date_injective latin1_isdecimal latin1_isalnum
           float_str_sample (init default_key_prefix)
           (Date 2024 3 7) (Date 2024 7 3));
    unfold valid_date; cbn; lia.
Defined.

Lemma to_sexp_control_free_witness :
  control_free
    (encoded latin1_isdecimal latin1_isalnum float_str_sample
       (init default_key_prefix) (VMapping person)) = true.
Proof.
  apply (to_sexp_control_free latin1_isdecimal latin1_isalnum
           float_str_sample latin1_isalnum_ascii latin1_isdecimal_ascii
           float_str_sample_control_free).
  - reflexivity.
  - reflexivity.
  - vm_compute. reflexivity.
Defined.

(* ------------------------------------------------------------------ *)
(** ** The encoder under the interpreter's limits *)

Lemma mapM_map {A B C : Type} (g : A -> B) (f : B -> result C) (l : list A) :
  mapM f (map g l) = mapM (fun x => f (g x)) l.
Proof.
  induction l as [|x l IH]; cbn [map mapM]; [reflexivity|].
  now rewrite IH.
Qed.

Lemma mapM_Ok_impl {A B : Type} (f g : A -> result B) (l : list A)
    (ys : list B) :
  (forall x, In x l -> forall y, f x = Ok y -> g x = Ok y) ->
  mapM f l = Ok ys -> mapM g l = Ok ys.
Proof.
  revert ys. induction l as [|x l IH]; intros ys Hfg H; [exact H|].
  cbn [mapM] in *.
  destruct (f x) as [y|e] eqn:Hx; [|discriminate].
  rewrite (Hfg x (or_introl eq_refl) y Hx).
  destruct (mapM f l) as [ys'|e] eqn:Hl; [|discriminate].
  rewrite (IH ys'); [exact H | | reflexivity].
  intros x' Hin. apply Hfg. now right.
Qed.


Section SubstitutionFacts.

Variables isdecimal isalnum : N -> bool.

(** A callback that returns at least where another does gives [sub] at
    least the same results. *)
Lemma sub_from_Ok_impl (r : regex) (f g : pystr -> result pystr) :
  (forall m out, f m = Ok out -> g m = Ok out) ->
  forall (s : pystr) (i k : nat) (out : pystr),
    sub_from isdecimal isalnum r f i k s = Ok out ->
    sub_from isdecimal isalnum r g i k s = Ok out.
Proof.
  intros Hfg. induction s as [|c rest IH]; intros i k out H.
  - cbn [sub_from] in *. destruct k; [|exact H].
    destruct (hd_error _); [|exact H]. now apply Hfg.
  - cbn [sub_from] in *. destruct k as [|k]; [|now apply IH].
    destruct (hd_error _) as [[j t]|].
    + destruct (j - i) as [|n].
      * destruct (f []) as [o|e] eqn:Hf; [|discriminate]. cbn [bind] in *.
        rewrite (Hfg _ _ Hf). cbn [bind].
        destruct (sub_from _ _ r f (S i) 0 rest) as [tl|e] eqn:Ht;
          [|discriminate].
        now rewrite (IH _ _ _ Ht).
      * destruct (f (firstn (S n) (c :: rest))) as [o|e] eqn:Hf;
          [|discriminate]. cbn [bind] in *.
        rewrite (Hfg _ _ Hf). cbn [bind].
        destruct (sub_from _ _ r f (S i) n rest) as [tl|e] eqn:Ht;
          [|discriminate].
        now rewrite (IH _ _ _ Ht).
    + destruct (sub_from _ _ r f (S i) 0 rest) as [tl|e] eqn:Ht;
        [|discriminate].
      now rewrite (IH _ _ _ Ht).
Qed.


End SubstitutionFacts.

Lemma forallb_is_dict_object (items : list Value) :
  forallb is_dict_object (map object_of items) = forallb is_dict items.
Proof.
  induction items as [|x l IH]; [reflexivity|]. cbn [map forallb].
  rewrite IH. now destruct x.
Qed.



Section LimitFacts.

Variables isdecimal isalnum : N -> bool.
Variable float_str : float -> pystr.
Variable comprehension_frame : bool.
Variable int_max_str_digits : nat.

Local Notation "'to_sexp_rt''" :=
  (to_sexp_rt isdecimal isalnum float_str comprehension_frame
     int_max_str_digits).


Lemma str_int_rt_Ok (z : Z) (s : pystr) :
  str_int_rt int_max_str_digits z = Ok s -> s = str_int z.
Proof.
  unfold str_int_rt. destruct (check_int_digits _ z); cbn [bind]; congruence.
Qed.

Lemma format_02d_rt_Ok (z : Z) (s : pystr) :
  format_02d_rt int_max_str_digits z = Ok s -> s = format_02d z.
Proof.
  unfold format_02d_rt. destruct (check_int_digits _ z); cbn [bind]; congruence.
Qed.

Lemma format_date_rt_Ok (avail : nat) (d : date) (s : pystr) :
  format_date_rt int_max_str_digits avail d = Ok s -> s = format_date d.
Proof.
  unfold format_date_rt, format_date. destruct avail; [discriminate|].
  cbn [call].
  destruct (str_int_rt _ (year d)) as [y|] eqn:Hy; [|discriminate].
  destruct (format_02d_rt _ (month d)) as [m|] eqn:Hm; [|discriminate].
  destruct (format_02d_rt _ (day d)) as [dd|] eqn:Hd; [|discriminate].
  cbn [bind]. intros [= <-].
  now rewrite (str_int_rt_Ok _ _ Hy), (format_02d_rt_Ok _ _ Hm),
    (format_02d_rt_Ok _ _ Hd).
Qed.


Lemma escape_string_rt_Ok (self : YAMLToSExpConverter) (avail : nat)
    (s out : pystr) :
  escape_string_rt isdecimal isalnum self avail s = Ok out ->
  escape_string isdecimal isalnum self s = Ok out.
Proof.
  unfold escape_string_rt, escape_string, re_sub.
  destruct avail as [|rest]; [discriminate|]. cbn [call].
  apply sub_from_Ok_impl. intros m o. now destruct rest.
Qed.


End LimitFacts.

Section LimitTheorems.

Variables isdecimal isalnum : N -> bool.
Variable float_str : float -> pystr.
Variable comprehension_frame : bool.
Variable int_max_str_digits : nat.

Local Notation "'to_sexp_rt''" :=
  (to_sexp_rt isdecimal isalnum float_str comprehension_frame
     int_max_str_digits).
Local Notation "'to_sexp''" := (to_sexp isdecimal isalnum float_str).

Lemma is_list_of_records_rt_Ok (avail : nat) (items : list Object) (b : bool) :
  items <> [] ->
  is_list_of_records_rt avail items = Ok b ->
  2 <= avail /\ b = forallb is_dict_object items.
Proof.
  intros Hne. unfold is_list_of_records_rt.
  destruct avail as [|[|k]]; [discriminate| |].
  - cbn [call]. destruct items; [contradiction | discriminate].
  - cbn [call]. destruct items; [contradiction|]. intros [= <-].
    split; [lia | reflexivity].
Qed.

Lemma is_list_of_records_rt_two (k : nat) (items : list Object) :
  items <> [] ->
  is_list_of_records_rt (S (S k)) items = Ok (forallb is_dict_object items).
Proof.
  intros Hne. unfold is_list_of_records_rt. cbn [call].
  destruct items; [contradiction | reflexivity].
Qed.

(** Whatever [to_sexp] returns under the limits, it returns without them. *)
Lemma to_sexp_rt_sound (self : YAMLToSExpConverter) (avail : nat) :
  forall (v : Value) (s : pystr),
    to_sexp_rt' self avail (object_of v) = Ok s -> to_sexp' self v = Ok s.
Proof.
  induction avail as [avail IH] using lt_wf_ind. intros v s H.
  destruct avail as [|rest]; [discriminate|].
  destruct v as [| b | z | f | t | d | d | items | items];
    cbn [object_of to_sexp_rt] in H; cbn [to_sexp].
  - exact H.
  - exact H.
  - apply str_int_rt_Ok in H. now subst.
  - exact H.
  - unfold is_symbol_rt in H. destruct rest as [|rest']; [discriminate|].
    cbn [call bind] in H.
    destruct (is_symbol isdecimal isalnum self t); [exact H|].
    destruct (escape_string_rt _ _ _ _ t) as [e|] eqn:He; [|discriminate].
    apply escape_string_rt_Ok in He. now rewrite He.
  - apply format_date_rt_Ok in H. now subst.
  - apply format_date_rt_Ok in H. now subst.
  - destruct items as [|x l]; [exact H|].
    change (map object_of (x :: l)) with (object_of x :: map object_of l) in H.
    cbv iota in H.
    destruct (is_list_of_records_rt rest _) as [b|] eqn:Hrec; [|discriminate].
    apply is_list_of_records_rt_Ok in Hrec as [Hrest ->]; [|discriminate].
    change (object_of x :: map object_of l)
      with (map object_of (x :: l)) in H.
    rewrite forallb_is_dict_object in H. cbn [bind] in H.
    unfold is_list_of_records.
    destruct (forallb is_dict (x :: l)).
    + rewrite mapM_map in H.
      match type of H with
      | bind (mapM ?f ?l) _ = _ => destruct (mapM f l) as [parts|] eqn:Hm
      end; [|discriminate].
      erewrite mapM_Ok_impl; [exact H | | exact Hm].
      intros a _ y Ha. cbn beta in *.
      destruct (to_sexp_rt' self rest (object_of a)) as [r|] eqn:Hr;
        [|discriminate].
      now rewrite (IH rest (Nat.lt_succ_diag_r rest) a r Hr).
    + destruct comprehension_frame.
      * destruct rest as [|inner]; [discriminate|].
        rewrite mapM_map in H.
        match type of H with
        | bind (mapM ?f ?l) _ = _ => destruct (mapM f l) as [parts|] eqn:Hm
        end; [|discriminate].
        erewrite mapM_Ok_impl; [exact H | | exact Hm].
        intros a _ y Ha. cbn beta in *. apply (IH inner); [lia | exact Ha].
      * rewrite mapM_map in H.
        match type of H with
        | bind (mapM ?f ?l) _ = _ => destruct (mapM f l) as [parts|] eqn:Hm
        end; [|discriminate].
        erewrite mapM_Ok_impl; [exact H | | exact Hm].
        intros a _ y Ha. cbn beta in *. apply (IH rest); [lia | exact Ha].
  - destruct items as [|x l]; [exact H|].
    change (map (fun item => (KText (fst item), object_of (snd item)))
              (x :: l))
      with ((KText (fst x), object_of (snd x))
              :: map (fun item => (KText (fst item), object_of (snd item)))
                   l) in H.
    cbv iota in H.
    change ((KText (fst x), object_of (snd x))
              :: map (fun item => (KText (fst item), object_of (snd item)))
                   l)
      with (map (fun item : pystr * Value =>
                   (KText (fst item), object_of (snd item)))
              (x :: l)) in H.
    rewrite mapM_map in H.
    match type of H with
    | bind (mapM ?f ?l) _ = _ => destruct (mapM f l) as [parts|] eqn:Hm
    end; [|discriminate].
    erewrite mapM_Ok_impl; [exact H | | exact Hm].
    intros [k a] _ y Ha. cbn [fst snd key_text_rt bind] in Ha.
    destruct (to_sexp_rt' self rest (object_of a)) as [r|] eqn:Hr;
      [|discriminate].
    now rewrite (IH rest (Nat.lt_succ_diag_r rest) a r Hr).
Qed.


End LimitTheorems.


Section LimitErrors.

Variables isdecimal isalnum : N -> bool.
Variable float_str : float -> pystr.
Variable comprehension_frame : bool.
Variable int_max_str_digits : nat.

Local Notation "'to_sexp_rt''" :=
  (to_sexp_rt isdecimal isalnum float_str comprehension_frame
     int_max_str_digits).







End LimitErrors.

Section LimitClaims.

Variables isdecimal isalnum : N -> bool.
Variable float_str : float -> pystr.
Variable comprehension_frame : bool.
Variable int_max_str_digits : nat.

Local Notation "'to_sexp_rt''" :=
  (to_sexp_rt isdecimal isalnum float_str comprehension_frame
     int_max_str_digits).

Lemma escape_string_rt_mono (self : YAMLToSExpConverter) (avail avail' : nat)
    (s out : pystr) :
  avail <= avail' ->
  escape_string_rt isdecimal isalnum self avail s = Ok out ->
  escape_string_rt isdecimal isalnum self avail' s = Ok out.
Proof.
  intros Hle. unfold escape_string_rt, re_sub.
  destruct avail as [|rest]; [discriminate|].
  destruct avail' as [|rest']; [lia|]. cbn [call].
  apply sub_from_Ok_impl. intros m o.
  destruct rest as [|r]; [discriminate|].
  destruct rest' as [|r']; [lia|]. now cbn [call].
Qed.

(** A result obtained with some frames is obtained with more. *)
Lemma to_sexp_rt_mono (self : YAMLToSExpConverter) (avail : nat) :
  forall (avail' : nat) (o : Object) (s : pystr),
    avail <= avail' ->
    to_sexp_rt' self avail o = Ok s -> to_sexp_rt' self avail' o = Ok s.
Proof.
  induction avail as [avail IH] using lt_wf_ind. intros avail' o s Hle H.
  destruct avail as [|rest]; [discriminate|].
  destruct avail' as [|rest']; [lia|].
  assert (Hrest : rest <= rest') by lia.
  destruct o as [| b | z | f | t | d | d | items | items | items | t];
    cbn [to_sexp_rt] in *.
  - exact H.
  - exact H.
  - exact H.
  - exact H.
  - unfold is_symbol_rt in *. destruct rest as [|r]; [discriminate|].
    destruct rest' as [|r']; [lia|]. cbn [call bind] in *.
    destruct (is_symbol _ _ _ t); [exact H|].
    destruct (escape_string_rt _ _ _ (S r) t) as [e|] eqn:He; [|discriminate].
    now rewrite (escape_string_rt_mono self (S r) (S r') t e Hrest He).
  - unfold format_date_rt in *. destruct rest; [discriminate|].
    destruct rest'; [lia | exact H].
  - unfold format_date_rt in *. destruct rest; [discriminate|].
    destruct rest'; [lia | exact H].
  - destruct items as [|x l]; [exact H|].
    destruct (is_list_of_records_rt rest (x :: l)) as [b|] eqn:Hrec;
      [|discriminate].
    apply is_list_of_records_rt_Ok in Hrec as [H2 ->]; [|discriminate].
    destruct rest' as [|[|k']]; [lia | lia |].
    rewrite is_list_of_records_rt_two by discriminate. cbn [bind] in *.
    destruct (forallb is_dict_object (x :: l)).
    + match type of H with
      | bind (mapM ?f ?l) _ = _ => destruct (mapM f l) as [parts|] eqn:Hm
      end; [|discriminate].
      erewrite mapM_Ok_impl; [exact H | | exact Hm].
      intros a _ y Ha. cbn beta in *.
      destruct (to_sexp_rt' self rest a) as [r|] eqn:Hr; [|discriminate].
      now rewrite (IH rest (Nat.lt_succ_diag_r rest) _ a r Hrest Hr).
    + revert H. destruct comprehension_frame; intros H.
      * destruct rest as [|inner]; [discriminate|].
        match type of H with
        | bind (mapM ?f ?l) _ = _ => destruct (mapM f l) as [parts|] eqn:Hm
        end; [|discriminate].
        erewrite mapM_Ok_impl; [exact H | | exact Hm].
        intros a _ y Ha. apply (IH inner); [lia | lia | exact Ha].
      * match type of H with
        | bind (mapM ?f ?l) _ = _ => destruct (mapM f l) as [parts|] eqn:Hm
        end; [|discriminate].
        erewrite mapM_Ok_impl; [exact H | | exact Hm].
        intros a _ y Ha. apply (IH rest); [lia | lia | exact Ha].
  - destruct items as [|x l]; [exact H|].
    match type of H with
    | bind (mapM ?f ?l) _ = _ => destruct (mapM f l) as [parts|] eqn:Hm
    end; [|discriminate].
    erewrite mapM_Ok_impl; [exact H | | exact Hm].
    intros [k a] _ y Ha.
    destruct (key_text_rt int_max_str_digits k) as [kt|]; [|discriminate].
    cbn [bind] in *.
    destruct (to_sexp_rt' self rest a) as [r|] eqn:Hr; [|discriminate].
    now rewrite (IH rest (Nat.lt_succ_diag_r rest) _ a r Hrest Hr).
  - exact (IH rest (Nat.lt_succ_diag_r rest) rest' _ s Hrest H).
  - destruct (escape_string_rt _ _ _ rest t) as [e|] eqn:He; [|discriminate].
    now rewrite (escape_string_rt_mono self rest rest' t e Hrest He).
Qed.


End LimitClaims.



Section LimitsAgree.

Variables isdecimal isalnum : N -> bool.
Variable float_str : float -> pystr.
Variable comprehension_frame : bool.
Variable int_max_str_digits : nat.

(** X17.  The limits decide whether [to_sexp] returns, never what it
    returns: a text returned with some frames left is returned with any
    larger number of frames, and for a value of the data model it is the
    text returned on an interpreter without limits. *)
Theorem limits_keep_the_output (self : YAMLToSExpConverter)
    (avail : nat) (o : Object) (s : pystr) :
  to_sexp_rt isdecimal isalnum float_str comprehension_frame
    int_max_str_digits self avail o = Ok s ->
  (forall avail', avail <= avail' ->
     to_sexp_rt isdecimal isalnum float_str comprehension_frame
       int_max_str_digits self avail' o = Ok s)
  /\ (forall v, o = object_of v ->
        to_sexp isdecimal isalnum float_str self v = Ok s).
Proof.
  intros H. split.
  - intros avail' Hle.
    exact (to_sexp_rt_mono isdecimal isalnum float_str comprehension_frame
             int_max_str_digits self avail avail' o s Hle H).
  - intros v ->.
    exact (to_sexp_rt_sound isdecimal isalnum float_str comprehension_frame
             int_max_str_digits self avail v s H).
Qed.

End LimitsAgree.

Lemma limits_keep_the_output_witness :
  to_sexp_rt latin1_isdecimal latin1_isalnum float_str_sample false 0
    (init default_key_prefix) 1000 (object_of (VSequence scalar_list))
  = Ok (lit "(1 " ++ DQUOTE :: lit "a b" ++ DQUOTE :: lit " #t)")
  /\ to_sexp latin1_isdecimal latin1_isalnum float_str_sample
       (init default_key_prefix) (VSequence scalar_list)
     = Ok (lit "(1 " ++ DQUOTE :: lit "a b" ++ DQUOTE :: lit " #t)").
Proof.
  destruct (limits_keep_the_output latin1_isdecimal latin1_isalnum
              float_str_sample false 0 (init default_key_prefix) 4
              (object_of (VSequence scalar_list))
              (lit "(1 " ++ DQUOTE :: lit "a b" ++ DQUOTE :: lit " #t)"))
    as [Hmore Hvalue].
  - vm_compute. reflexivity.
  - split.
    + apply Hmore. lia.
    + apply Hvalue. reflexivity.
Defined.

Lemma mapM_cons_Ok {A B : Type} (f : A -> result B) (x : A) (l : list A)
    (ys : list B) :
  mapM f (x :: l) = Ok ys ->
  exists y rest, ys = y :: rest /\ f x = Ok y.
Proof.
  cbn [mapM]. destruct (f x) as [y|]; [|discriminate].
  destruct (mapM f l) as [rest|]; [|discriminate].
  intros [= <-]. now exists y, rest.
Qed.

Section Collisions.

Variables isdecimal isalnum : N -> bool.
Variable float_str : float -> pystr.
Variable comprehension_frame : bool.
Variable int_max_str_digits : nat.

Local Notation "'to_sexp_rt''" :=
  (to_sexp_rt isdecimal isalnum float_str comprehension_frame
     int_max_str_digits).

(** [str] of a float does not start with a quote. *)
Hypothesis float_str_first_char :
  forall f, opens_text (hd 0%N (float_str f)) = false.

Lemma text_rt_Ok (prefix : pystr) (avail : nat) (s t : pystr) :
  to_sexp_rt' (init prefix) avail (OText s) = Ok t ->
  (is_symbol isdecimal isalnum (init prefix) s = true /\ t = SQUOTE :: s)
  \/ (is_symbol isdecimal isalnum (init prefix) s = false /\
      t = DQUOTE :: flat_map escape_code_point s ++ [DQUOTE]).
Proof.
  destruct avail as [|[|r]]; [discriminate | discriminate |].
  cbn [to_sexp_rt]. unfold is_symbol_rt. cbn [call bind].
  destruct (is_symbol _ _ _ s).
  - intros [= <-]. now left.
  - destruct (escape_string_rt _ _ _ _ s) as [e|] eqn:He; [|discriminate].
    apply escape_string_rt_Ok in He. rewrite escape_string_flat_map in He.
    cbn [bind]. intros [= <-]. right. split; [reflexivity|]. congruence.
Qed.

Lemma other_rt_Ok (prefix : pystr) (avail : nat) (u t : pystr) :
  to_sexp_rt' (init prefix) avail (OOther u) = Ok t ->
  t = DQUOTE :: flat_map escape_code_point u ++ [DQUOTE].
Proof.
  destruct avail as [|rest]; [discriminate|]. cbn [to_sexp_rt].
  destruct (escape_string_rt _ _ _ _ u) as [e|] eqn:He; [|discriminate].
  apply escape_string_rt_Ok in He. rewrite escape_string_flat_map in He.
  cbn [bind]. intros [= <-]. congruence.
Qed.

Lemma list_rt_first_char (prefix : pystr) (avail : nat) (items : list Object)
    (t : pystr) :
  to_sexp_rt' (init prefix) avail (OList items) = Ok t ->
  opens_text (hd 0%N t) = false.
Proof.
  destruct avail as [|rest]; [discriminate|]. cbn [to_sexp_rt].
  destruct items as [|x l]; [now intros [= <-]|].
  destruct (is_list_of_records_rt rest (x :: l)) as [b|]; [|discriminate].
  cbn [bind]. destruct b.
  - match goal with
    | |- bind (mapM ?f ?l) _ = _ -> _ =>
        destruct (mapM f l) as [parts|] eqn:Hm
    end; [|discriminate].
    apply mapM_cons_Ok in Hm as (y & ys & -> & Hy). cbn beta in Hy.
    destruct (to_sexp_rt' (init prefix) rest x); [|discriminate].
    cbn [bind] in Hy. injection Hy as <-.
    cbn [bind]. intros [= <-]. destruct ys; reflexivity.
  - match goal with
    | |- bind ?m _ = _ -> _ => destruct m as [parts|]
    end; [|discriminate].
    cbn [bind]. now intros [= <-].
Qed.

Lemma other_types_first_char (prefix : pystr) (avail : nat) (o : Object)
    (t : pystr) :
  to_sexp_rt' (init prefix) avail o = Ok t ->
  (forall s, o <> OText s) -> (forall s, o <> OOther s) ->
  opens_text (hd 0%N t) = false.
Proof.
  intros H Htext Hother.
  destruct avail as [|rest]; [discriminate|].
  destruct o as [| b | z | f | s | d | d | items | items | items | u].
  - cbn in H. now injection H as <-.
  - cbn in H. injection H as <-. now destruct b.
  - cbn [to_sexp_rt] in H. apply str_int_rt_Ok in H. subst.
    apply str_int_first_char.
  - cbn [to_sexp_rt] in H.
    destruct (negb (f =? f)%float); [now injection H as <-|].
    destruct (f =? infinity)%float; [now injection H as <-|].
    destruct (f =? neg_infinity)%float; [now injection H as <-|].
    injection H as <-. apply float_str_first_char.
  - now contradiction (Htext s).
  - cbn [to_sexp_rt] in H. apply format_date_rt_Ok in H. now subst.
  - cbn [to_sexp_rt] in H. apply format_date_rt_Ok in H. now subst.
  - now apply (list_rt_first_char prefix (S rest) items).
  - cbn [to_sexp_rt] in H. destruct items as [|x l]; [now injection H as <-|].
    match type of H with
    | bind (mapM ?f ?l) _ = _ => destruct (mapM f l) as [parts|] eqn:Hm
    end; [|discriminate].
    apply mapM_cons_Ok in Hm as (y & ys & -> & Hy). destruct x as [k a].
    destruct (key_text_rt int_max_str_digits k); [|discriminate].
    cbn [bind] in Hy.
    destruct (to_sexp_rt' (init prefix) rest a); [|discriminate].
    cbn [bind] in Hy. injection Hy as <-.
    cbn [bind] in H. injection H as <-. destruct ys; reflexivity.
  - cbn [to_sexp_rt] in H. now apply (list_rt_first_char prefix rest items).
  - now contradiction (Hother u).
Qed.

(** X8.  The encoding of a text is shared by one kind of object only: an
    object of the last [else] that is not iterable (a [bytes] object) and
    whose [str] is that text, when the text is not a symbol.  No other
    object, be it null, a boolean, a number, a date, a list, a dict, an
    iterable or another text, is encoded like the text [s]. *)
Theorem text_encoding_collisions (prefix : pystr) (avail : nat)
    (s t : pystr) (o : Object) :
  to_sexp_rt' (init prefix) avail (OText s) = Ok t ->
  (to_sexp_rt' (init prefix) avail o = Ok t <->
   o = OText s \/
   (o = OOther s /\ is_symbol isdecimal isalnum (init prefix) s = false)).
Proof.
  intros Htext. split.
  - intros Ho.
    assert (Hopen : opens_text (hd 0%N t) = true).
    { apply text_rt_Ok in Htext as [[_ ->]|[_ ->]]; reflexivity. }
    destruct o as [| b | z | f | s' | d | d | items | items | items | u];
      try (exfalso;
           rewrite (other_types_first_char prefix avail _ t Ho) in Hopen;
           [discriminate | intros ?; discriminate | intros ?; discriminate]).
    + left. f_equal.
      apply text_rt_Ok in Htext as [[_ ->]|[_ ->]];
        apply text_rt_Ok in Ho as [[_ Ho]|[_ Ho]];
        try discriminate.
      * now injection Ho.
      * injection Ho as Ho. apply app_inj_tail in Ho as [Ho _].
        symmetry. now apply flat_map_escape_inj.
    + right.
      apply other_rt_Ok in Ho.
      apply text_rt_Ok in Htext as [[_ ->]|[Hsym ->]]; [discriminate|].
      injection Ho as Ho. apply app_inj_tail in Ho as [Ho _].
      apply flat_map_escape_inj in Ho. subst. auto.
  - intros [->|[-> Hsym]]; [exact Htext|].
    destruct avail as [|[|r]]; [discriminate | discriminate |].
    cbn [to_sexp_rt] in *. unfold is_symbol_rt in Htext.
    cbn [call bind] in Htext. rewrite Hsym in Htext. exact Htext.
Qed.

End Collisions.

Lemma text_encoding_collisions_witness :
  to_sexp_rt latin1_isdecimal latin1_isalnum float_str_sample true 4300
    (init default_key_prefix) 3 text_bytes_hi
  = Ok (DQUOTE :: lit "b'hi'" ++ [DQUOTE])
  /\ to_sexp_rt latin1_isdecimal latin1_isalnum float_str_sample true 4300
       (init default_key_prefix) 3 bytes_hi
     = Ok (DQUOTE :: lit "b'hi'" ++ [DQUOTE]).
Proof.
  assert (Htext :
    to_sexp_rt latin1_isdecimal latin1_isalnum float_str_sample true 4300
      (init default_key_prefix) 3 text_bytes_hi
    = Ok (DQUOTE :: lit "b'hi'" ++ [DQUOTE])) by (vm_compute; reflexivity).
  split; [exact Htext|].
  apply (proj2 (text_encoding_collisions latin1_isdecimal latin1_isalnum
                  float_str_sample true 4300 float_str_sample_first_char
                  default_key_prefix 3 (lit "b'hi'")
                  (DQUOTE :: lit "b'hi'" ++ [DQUOTE]) bytes_hi Htext)).
  right. split; vm_compute; reflexivity.
Defined.

(* ------------------------------------------------------------------ *)
(** ** [main] under the interpreter's limits *)

Section MainLimitFacts.

Variables isdecimal isalnum : N -> bool.
Variable float_str : float -> pystr.
Variable comprehension_frame : bool.
Variable int_max_str_digits : nat.

Local Notation "'main_try''" :=
  (main_try isdecimal isalnum float_str comprehension_frame
     int_max_str_digits).
Local Notation "'main_rt''" :=
  (main_rt isdecimal isalnum float_str comprehension_frame
     int_max_str_digits).
Local Notation "'encode_rt'" :=
  (to_sexp_rt isdecimal isalnum float_str comprehension_frame
     int_max_str_digits (init default_key_prefix)).

Lemma validate_yaml_structure_rt_Ok (avail : nat) (root : Object) :
  1 <= avail -> root <> ONull ->
  validate_yaml_structure_rt avail root = Ok true.
Proof.
  intros Havail Hroot. destruct avail; [lia|].
  destruct root; (reflexivity || contradiction).
Qed.

Lemma init_rt_Ok (avail compile_frames : nat) (prefix : pystr) :
  compile_frames < avail ->
  init_rt avail compile_frames prefix = Ok (init prefix).
Proof.
  intros H. unfold init_rt. destruct avail as [|rest]; [lia|]. cbn [call].
  destruct (Nat.ltb_spec rest compile_frames); [lia | reflexivity].
Qed.

Lemma init_rt_Raise (avail compile_frames : nat) (prefix : pystr) :
  avail <= compile_frames ->
  init_rt avail compile_frames prefix = Raise recursion_error.
Proof.
  intros H. unfold init_rt. destruct avail as [|rest]; [reflexivity|].
  cbn [call]. destruct (Nat.ltb_spec rest compile_frames); [reflexivity|lia].
Qed.

(** The body of [try] once the file is found, loaded to an object that is
    not [None], and the converter is built. *)
Lemma main_try_loaded (w : runtime) (root : Object) :
  rt_path_exists w (rt_input_file w) = Ok true ->
  rt_safe_load w (rt_input_file w) = Ok root -> root <> ONull ->
  rt_compile_frames w < rt_frames w ->
  main_try' w =
  (s_expression <- encode_rt (rt_frames w) root ;;
   _ <- rt_print w (lit "(" ++ s_expression ++ lit ")") ;;
   Ok (Some (lit "(" ++ s_expression ++ lit ")"))).
Proof.
  intros Hex Hload Hroot Hframes. unfold main_try.
  rewrite Hex, Hload. cbn [bind negb].
  rewrite validate_yaml_structure_rt_Ok by (lia || assumption).
  rewrite init_rt_Ok by assumption. reflexivity.
Qed.

(** When the body of [try] returns the text it printed. *)
Lemma main_try_Some (w : runtime) (line : pystr) :
  main_try' w = Ok (Some line) <->
  exists root s,
    rt_path_exists w (rt_input_file w) = Ok true /\
    rt_safe_load w (rt_input_file w) = Ok root /\ root <> ONull /\
    rt_compile_frames w < rt_frames w /\
    encode_rt (rt_frames w) root = Ok s /\
    rt_print w (lit "(" ++ s ++ lit ")") = Ok tt /\
    line = lit "(" ++ s ++ lit ")".
Proof.
  split.
  - unfold main_try.
    destruct (rt_path_exists w (rt_input_file w)) as [[|]|] eqn:Hex;
      cbn [bind negb]; [|discriminate|discriminate].
    destruct (rt_safe_load w (rt_input_file w)) as [root|] eqn:Hload;
      cbn [bind]; [|discriminate].
    destruct (validate_yaml_structure_rt (rt_frames w) root) eqn:Hval;
      cbn [bind]; [|discriminate].
    assert (Hroot : root <> ONull).
    { intros ->. unfold validate_yaml_structure_rt in Hval.
      destruct (rt_frames w); discriminate. }
    destruct (Nat.le_gt_cases (rt_frames w) (rt_compile_frames w)) as [Hle|Hgt].
    { rewrite init_rt_Raise by exact Hle. discriminate. }
    rewrite init_rt_Ok by exact Hgt. cbn [bind].
    destruct (encode_rt (rt_frames w) root) as [s|] eqn:Henc;
      cbn [bind]; [|discriminate].
    destruct (rt_print w (lit "(" ++ s ++ lit ")")) as [[]|] eqn:Hprint;
      cbn [bind]; [|discriminate].
    intros [= <-]. exists root, s. auto 10.
  - intros (root & s & Hex & Hload & Hroot & Hframes & Henc & Hprint & ->).
    rewrite (main_try_loaded w root Hex Hload Hroot Hframes).
    rewrite Henc. cbn [bind]. rewrite Hprint. reflexivity.
Qed.

(** When the body of [try] returns after the message on a missing file. *)
Lemma main_try_None (w : runtime) :
  main_try' w = Ok None <-> rt_path_exists w (rt_input_file w) = Ok false.
Proof.
  split.
  - unfold main_try.
    destruct (rt_path_exists w (rt_input_file w)) as [[|]|];
      cbn [bind negb]; [|reflexivity|discriminate].
    destruct (rt_safe_load w (rt_input_file w)) as [root|];
      cbn [bind]; [|discriminate].
    destruct (validate_yaml_structure_rt (rt_frames w) root);
      cbn [bind]; [|discriminate].
    destruct (init_rt _ _ _); cbn [bind]; [|discriminate].
    destruct (to_sexp_rt _ _ _ _ _ _ _ _) as [s|]; cbn [bind]; [|discriminate].
    destruct (rt_print w _) as [[]|]; cbn [bind]; discriminate.
  - intros H. unfold main_try. now rewrite H.
Qed.

(** What an [except] clause writes. *)
Lemma reported_shape (w : runtime) (e : exn) :
  status (reported w e) = 1%Z /\ stdout (reported w e) = [] /\
  exists msg, msg <> [] /\ stderr (reported w e) = msg ++ [NEWLINE].
Proof.
  destruct e; cbn [reported status stdout stderr];
    (split; [reflexivity|]; split; [reflexivity|]; eexists;
     split; [|rewrite !app_assoc; reflexivity]; cbn; discriminate).
Qed.

End MainLimitFacts.

Section MainLimitTheorems.

Variables isdecimal isalnum : N -> bool.
Variable float_str : float -> pystr.
Variable comprehension_frame : bool.
Variable int_max_str_digits : nat.

Local Notation "'main_try''" :=
  (main_try isdecimal isalnum float_str comprehension_frame
     int_max_str_digits).
Local Notation "'main_rt''" :=
  (main_rt isdecimal isalnum float_str comprehension_frame
     int_max_str_digits).
Local Notation "'encode_rt'" :=
  (to_sexp_rt isdecimal isalnum float_str comprehension_frame
     int_max_str_digits (init default_key_prefix)).


(** X14.  A run of [main] writes to one stream only.  With status 0 the
    error stream is empty and the output is an opening parenthesis, the text
    [to_sexp] returned for the loaded object, a closing parenthesis and a
    newline.  With any other status the output is empty and the error stream
    is a non-empty message followed by a newline. *)
Theorem main_rt_writes_one_stream (w : runtime) :
  (status (main_rt' w) = 0%Z ->
   stderr (main_rt' w) = [] /\
   exists root s,
     rt_safe_load w (rt_input_file w) = Ok root /\
     encode_rt (rt_frames w) root = Ok s /\
     stdout (main_rt' w) = (lit "(" ++ s ++ lit ")") ++ [NEWLINE])
  /\ (status (main_rt' w) <> 0%Z ->
      stdout (main_rt' w) = [] /\
      exists msg, msg <> [] /\ stderr (main_rt' w) = msg ++ [NEWLINE]).
Proof.
  unfold main_rt. destruct (main_try' w) as [[line|]|e] eqn:Htry;
    cbn [status stdout stderr].
  - split; [|intros H; now contradiction H].
    intros _. split; [reflexivity|].
    apply main_try_Some in Htry
      as (root & s & _ & Hload & _ & _ & Henc & _ & ->).
    now exists root, s.
  - split; [discriminate|]. intros _. split; [reflexivity|].
    eexists. split; [|rewrite !app_assoc; reflexivity]. cbn. discriminate.
  - destruct (reported_shape w e) as (-> & -> & msg & Hmsg & ->).
    split; [discriminate|]. intros _. split; [reflexivity|]. now exists msg.
Qed.


End MainLimitTheorems.


(** A run of [main] on the sample document. *)
Example main_rt_person :
  main_rt latin1_isdecimal latin1_isalnum float_str_sample true 4300
    runtime_person
  = Outcome (lit "((yaml:name 'Alice) (yaml:age 30))" ++ [NEWLINE]) [] 0.
Proof. vm_compute. reflexivity. Qed.
